(** * Tiny ERP balance sheet transformer: wide-to-long reshape

    A shallow embedding of [optimizer.py] (class [FinancialDataTransformer]
    and [main]) and the properties of its validator, its date-column parser,
    its reshape loop, its summary and its command line.

    Conventions of the embedding.
    - A Python [str] is a Rocq [string] holding its UTF-8 bytes.  Byte-wise
      lexicographic order on UTF-8 is code-point order, which is how Python
      compares strings.
    - A call that may raise returns a [result]; the exception classes that
      the code can meet are the constructors of [exception].
    - A Python [float] is an IEEE-754 binary64 number, [spec_float] with
      precision 53 and maximal exponent 1024.
    - The data frame read from the CSV file is a list of column labels and a
      list of rows; a row maps every label to a cell, which holds a text, a
      number, or nothing. *)

From Stdlib Require Import Ascii String DecimalString.
From Stdlib Require Import Bool List ZArith NArith Lia Sorted Permutation.
From Stdlib Require Import Floats.SpecFloat.
Import ListNotations.

Local Open Scope string_scope.
Local Open Scope Z_scope.

(** ** Exceptions and the error monad *)

Inductive exception : Type :=
  | ValueError (msg : string)   (* raised by the program, with its message *)
  | ValueError_unpack           (* host: unpacking a split of other than two parts *)
  | ValueError_int              (* host: int() on a text that is no integer literal *)
  | TypeError_format            (* host: format spec 02d applied to None *)
  | KeyError (key : string)     (* host: missing dict key or frame label *)
  | AttributeError_strip.       (* host: .strip() on a cell that is no str *)

Inductive result (A : Type) : Type :=
  | Ok (a : A)
  | Raise (e : exception).

Arguments Ok {A} a.
Arguments Raise {A} e.

Definition bind {A B : Type} (r : result A) (k : A -> result B) : result B :=
  match r with
  | Ok a => k a
  | Raise e => Raise e
  end.

Notation "x <- r ;; k" := (bind r (fun x => k))
  (at level 61, r at next level, right associativity).
Notation "' p <- r ;; k" := (bind r (fun x => let p := x in k))
  (at level 61, p pattern, r at next level, right associativity).

Definition raises {A : Type} (r : result A) : Prop :=
  exists e, r = Raise e.

(** ** Host string operations *)

Module PyStr.

Definition code (c : ascii) : N := N_of_ascii c.

Definition between (lo hi : N) (c : ascii) : bool :=
  ((lo <=? code c) && (code c <=? hi))%N.

Definition byte_is (n : N) (c : ascii) : bool := (code c =? n)%N.

(** [str.isspace] on one-byte characters: U+0009..U+000D, U+001C..U+001F
    and U+0020. *)
Definition isspace1 (c : ascii) : bool :=
  between 9 13 c || between 28 31 c || byte_is 32 c.

(** Two-byte whitespace: U+0085 and U+00A0. *)
Definition isspace2 (c1 c2 : ascii) : bool :=
  byte_is 194 c1 && (byte_is 133 c2 || byte_is 160 c2).

(** Three-byte whitespace: U+1680, U+2000..U+200A, U+2028, U+2029, U+202F,
    U+205F and U+3000. *)
Definition isspace3 (c1 c2 c3 : ascii) : bool :=
  (byte_is 225 c1 && byte_is 154 c2 && byte_is 128 c3)
  || (byte_is 226 c1 && byte_is 128 c2
      && (between 128 138 c3 || byte_is 168 c3 || byte_is 169 c3 || byte_is 175 c3))
  || (byte_is 226 c1 && byte_is 129 c2 && byte_is 159 c3)
  || (byte_is 227 c1 && byte_is 128 c2 && byte_is 128 c3).

Section DropSpaces.
Variable sp1 : ascii -> bool.
Variable sp2 : ascii -> ascii -> bool.
Variable sp3 : ascii -> ascii -> ascii -> bool.

Fixpoint drop_spaces (s : string) : string :=
  match s with
  | EmptyString => s
  | String c1 r1 =>
      if sp1 c1 then drop_spaces r1
      else
        match r1 with
        | EmptyString => s
        | String c2 r2 =>
            if sp2 c1 c2 then drop_spaces r2
            else
              match r2 with
              | EmptyString => s
              | String c3 r3 =>
                  if sp3 c1 c2 c3 then drop_spaces r3 else s
              end
        end
  end.
End DropSpaces.

Definition reverse (s : string) : string :=
  string_of_list_ascii (rev (list_ascii_of_string s)).

Definition lstrip (s : string) : string :=
  drop_spaces isspace1 isspace2 isspace3 s.

(** Trailing whitespace is dropped on the reversed bytes, where the bytes
    of a multi-byte character come in the opposite order. *)
Definition rstrip (s : string) : string :=
  reverse (drop_spaces isspace1 (fun a b => isspace2 b a)
                       (fun a b c => isspace3 c b a) (reverse s)).

(** [s.strip()] *)
Definition strip (s : string) : string := rstrip (lstrip s).

(** [sep in s] for a one-character [sep]. *)
Fixpoint contains (sep : ascii) (s : string) : bool :=
  match s with
  | EmptyString => false
  | String c r => Ascii.eqb c sep || contains sep r
  end.

(** [s.split(sep)] for a one-character [sep]: never empty. *)
Fixpoint split (sep : ascii) (s : string) : list string :=
  match s with
  | EmptyString => [EmptyString]
  | String c r =>
      if Ascii.eqb c sep then EmptyString :: split sep r
      else
        match split sep r with
        | [] => [String c EmptyString]
        | p :: ps => String c p :: ps
        end
  end.

(** [s.replace(old, new)] for one-character [old] and [new]. *)
Fixpoint replace (old new : ascii) (s : string) : string :=
  match s with
  | EmptyString => EmptyString
  | String c r =>
      String (if Ascii.eqb c old then new else c) (replace old new r)
  end.

Definition isdigit (c : ascii) : bool := between 48 57 c.

Definition digit (c : ascii) : Z := Z.of_N (code c) - 48.

(** The digits of an integer literal: groups of digits separated by single
    underscores. *)
Fixpoint int_digits (s : string) (acc : Z) (after_digit : bool) : option Z :=
  match s with
  | EmptyString => if after_digit then Some acc else None
  | String c r =>
      if isdigit c then int_digits r (10 * acc + digit c) true
      else if byte_is 95 c && after_digit then int_digits r acc false
      else None
  end.

(** The one-byte characters [int()] skips around a literal: U+0009..U+000D
    and U+0020.  The separators U+001C..U+001F, which [str.strip] drops, are
    no spaces to [int()]. *)
Definition isspace_int (c : ascii) : bool :=
  between 9 13 c || byte_is 32 c.

(** The text [int()] parses: the surrounding spaces dropped, those of one
    byte and the whitespace characters beyond ASCII. *)
Definition int_strip (s : string) : string :=
  reverse (drop_spaces isspace_int (fun a b => isspace2 b a)
                       (fun a b c => isspace3 c b a)
                       (reverse (drop_spaces isspace_int isspace2 isspace3 s))).

(** [int(s)] in base 10: surrounding whitespace, an optional sign, then the
    digits.  [None] stands for ValueError.  Digits are the ASCII digits;
    decimal digits of other scripts, which the host also reads, and the
    host's cap on the length of a literal are left out. *)
Definition py_int (s : string) : option Z :=
  match int_strip s with
  | String c r =>
      if byte_is 45 c then option_map Z.opp (int_digits r 0 false)
      else if byte_is 43 c then int_digits r 0 false
      else int_digits (String c r) 0 false
  | EmptyString => None
  end.

(** [str(n)] and [f"{n}"] for an [int]. *)
Definition of_int (n : Z) : string := NilZero.string_of_int (Z.to_int n).

(** [f"{n:02d}"]: zero padding to width two, the sign included. *)
Definition format_02d (n : Z) : string :=
  if n <? 0 then of_int n
  else if n <? 10 then String "0" (of_int n)
  else of_int n.

(** [repr] of a list of plain names (no quote, backslash or control
    character in them), as in [f"{names}"]. *)
Definition repr_names (names : list string) : string :=
  "[" ++ String.concat ", " (map (fun n => "'" ++ n ++ "'") names) ++ "]".

End PyStr.

(** ** Host numbers *)

Module PyFloat.

Definition prec : Z := 53.
Definition emax : Z := 1024.

Definition nan : spec_float := S754_nan.
Definition zero : spec_float := S754_zero false.

Definition isnan (x : spec_float) : bool :=
  match x with S754_nan => true | _ => false end.




(** [pd.notnull(x)] on a float scalar. *)
Definition notnull (x : spec_float) : bool := negb (isnan x).

(** The float nearest to [(-1)^neg * m / d], ties to even ([0 < d]). *)
Definition of_ratio (neg : bool) (m d : positive) : spec_float :=
  SFdiv prec emax (S754_finite neg m 0) (S754_finite false d 0).

(** The float nearest to [(-1)^neg * m * 10^e]. *)
Definition of_decimal (neg : bool) (m : N) (e : Z) : spec_float :=
  match m with
  | N0 => S754_zero neg
  | Npos p =>
      if 0 <=? e then of_ratio neg (p * Z.to_pos (10 ^ e)) 1
      else of_ratio neg p (Z.to_pos (10 ^ (- e)))
  end.

Definition of_Z (n : Z) : spec_float :=
  of_decimal (n <? 0) (Z.abs_N n) 0.

(** Nearest integer to [n / d], ties to even ([0 < d]). *)
Definition div_half_even (n d : Z) : Z :=
  let q := n / d in
  let r := n mod d in
  match 2 * r ?= d with
  | Lt => q
  | Gt => q + 1
  | Eq => if Z.even q then q else q + 1
  end.

(** [round(x, 2)]: the exact value [m * 2^e] of [x] is rounded to a whole
    number of hundredths, ties to even, and that decimal is read back as
    the nearest float.  A float with [0 <= e] is an integer and rounds to
    itself, as do zeros, infinities and NaN. *)
Definition round2 (x : spec_float) : spec_float :=
  match x with
  | S754_finite s m e =>
      if 0 <=? e then x
      else
        match div_half_even (Zpos m * 100) (2 ^ (- e)) with
        | Zpos n => of_ratio s n 100
        | _ => S754_zero s
        end
  | _ => x
  end.

Definition isspace (c : ascii) : bool :=
  PyStr.between 9 13 c || PyStr.byte_is 32 c.

Fixpoint skip_spaces (s : string) : string :=
  match s with
  | String c r => if isspace c then skip_spaces r else s
  | EmptyString => s
  end.

(** An optional sign: whether it is a minus, and the rest. *)
Definition take_sign (s : string) : bool * string :=
  match s with
  | String c r =>
      if PyStr.byte_is 45 c then (true, r)
      else if PyStr.byte_is 43 c then (false, r)
      else (false, s)
  | EmptyString => (false, s)
  end.

(** A run of digits read onto [acc]: the number, how many digits, the
    rest. *)
Fixpoint take_digits (s : string) (acc : N) (n : nat) : N * nat * string :=
  match s with
  | String c r =>
      if PyStr.isdigit c
      then take_digits r (10 * acc + (PyStr.code c - 48))%N (S n)
      else (acc, n, s)
  | EmptyString => (acc, n, s)
  end.

(** A decimal literal: spaces, sign, digits with an optional point (one
    digit at least), an optional exponent with its digits, spaces.  Gives
    the sign, the digits as one number and the power of ten. *)
Definition scan_decimal (s : string) : option (bool * N * Z) :=
  let '(neg, s1) := take_sign (skip_spaces s) in
  let '(ip, ni, s2) := take_digits s1 0%N 0%nat in
  let '(m, nf, s3) :=
    match s2 with
    | String c r =>
        if PyStr.byte_is 46 c then take_digits r ip 0%nat else (ip, 0%nat, s2)
    | EmptyString => (ip, 0%nat, s2)
    end in
  match (ni + nf)%nat with
  | O => None
  | S _ =>
      let exponent :=
        match s3 with
        | String c r =>
            if PyStr.byte_is 101 c || PyStr.byte_is 69 c then
              let '(eneg, r1) := take_sign r in
              let '(ev, ne, r2) := take_digits r1 0%N 0%nat in
              match ne with
              | O => None
              | S _ => Some (if eneg then - Z.of_N ev else Z.of_N ev, r2)
              end
            else Some (0, s3)
        | EmptyString => Some (0, s3)
        end in
      match exponent with
      | Some (e, s4) =>
          match skip_spaces s4 with
          | EmptyString => Some (neg, m, e - Z.of_nat nf)
          | String _ _ => None
          end
      | None => None
      end
  end.

Definition lower (c : ascii) : ascii :=
  if PyStr.between 65 90 c then ascii_of_N (PyStr.code c + 32) else c.

Fixpoint lowercase (s : string) : string :=
  match s with
  | String c r => String (lower c) (lowercase r)
  | EmptyString => EmptyString
  end.

(** The spelled infinities, in any letter case. *)
Definition scan_infinity (s : string) : option bool :=
  let t := lowercase s in
  if existsb (String.eqb t) ["inf"; "+inf"; "infinity"; "+infinity"]
  then Some false
  else if existsb (String.eqb t) ["-inf"; "-infinity"] then Some true
  else None.

(** A literal with neither a point nor an exponent is read as an int. *)
Definition maybe_int (s : string) : bool :=
  negb (PyStr.contains "." s || PyStr.contains "e" s || PyStr.contains "E" s).

(** [pd.to_numeric(s, errors='coerce')] on a [str] scalar.  A decimal
    literal gives the nearest float, an infinity when it is too large for a
    float; a literal read as an int is converted from the int, so that "-0"
    gives 0.0; the spelled infinities give infinities; any other text is
    coerced to NaN. *)
Definition to_numeric (s : string) : spec_float :=
  match scan_decimal s with
  | Some (neg, m, e) =>
      if maybe_int s && N.eqb m 0 then zero else of_decimal neg m e
  | None =>
      match scan_infinity s with
      | Some neg => S754_infinity neg
      | None => nan
      end
  end.

End PyFloat.

(** ** The data frame and the output records *)

(** The number in a cell of a column read as numbers: an infinity, or the
    exact value [m * 2^e] of an int, of a bool (0 or 1) or of a finite
    float. *)
Inductive number : Type :=
  | NInf (neg : bool)
  | NDyadic (m e : Z).

(** A cell as the program sees it: a [str]; the float NaN where the file has
    nothing; or a number, which comes with the text [str()] gives for it,
    the only way a cell of a date column enters the computation. *)
Inductive cell : Type :=
  | CStr (s : string)
  | CNaN
  | CNum (v : number) (text : string).

(** [str(c)] *)
Definition py_str (c : cell) : string :=
  match c with
  | CStr s => s
  | CNaN => "nan"
  | CNum _ text => text
  end.

Definition is_str (c : cell) : bool :=
  match c with CStr _ => true | _ => false end.

(** A row of the frame: [row[label]].  The program reads a row under the
    labels of [df.columns] only, and under the three identifying labels once
    validation has found them there. *)
Definition Row : Type := string -> cell.

(** The frame [pd.read_csv] returns: [df.columns] and the rows in file
    order. *)
Record DataFrame : Type := {
  columns : list string;
  rows : list Row
}.

(** One record of [transformed_data]. *)
Record Observation : Type := {
  Data : string;
  Ano : Z;
  Mes : Z;
  Mes_Nome : string;
  Tipo : cell;
  Grupo : cell;
  Categoria : string;
  Valor : spec_float
}.

(** A Python dict as an association list in insertion order. *)
Fixpoint dict_get {K V : Type} (eqb : K -> K -> bool) (d : list (K * V)) (k : K)
  : option V :=
  match d with
  | [] => None
  | (k', v) :: d' => if eqb k' k then Some v else dict_get eqb d' k
  end.

(** ** Sorting the output frame *)

(** Numbers by their values. *)
Definition number_compare (a b : number) : comparison :=
  match a, b with
  | NInf true, NInf true => Eq
  | NInf true, _ => Lt
  | _, NInf true => Gt
  | NInf false, NInf false => Eq
  | NInf false, _ => Gt
  | _, NInf false => Lt
  | NDyadic m1 e1, NDyadic m2 e2 =>
      (m1 * 2 ^ (e1 - Z.min e1 e2) ?= m2 * 2 ^ (e2 - Z.min e1 e2))%Z
  end.

(** The order of the values of a key column: numbers by value, texts by
    code point, a number before a text where a column holds both, and the
    missing cells last ([na_position='last']). *)
Definition cell_compare (a b : cell) : comparison :=
  match a, b with
  | CNum x _, CNum y _ => number_compare x y
  | CNum _ _, _ => Lt
  | CStr _, CNum _ _ => Gt
  | CStr x, CStr y => String.compare x y
  | CStr _, CNaN => Lt
  | CNaN, CNaN => Eq
  | CNaN, _ => Gt
  end.

Definition then_compare (c : comparison) (k : comparison) : comparison :=
  match c with
  | Eq => k
  | _ => c
  end.

(** Order of two records under the sort keys Data, Tipo, Grupo, Categoria. *)
Definition key_compare (a b : Observation) : comparison :=
  then_compare (String.compare (Data a) (Data b))
    (then_compare (cell_compare (Tipo a) (Tipo b))
       (then_compare (cell_compare (Grupo a) (Grupo b))
          (String.compare (Categoria a) (Categoria b)))).

Definition key_leb (a b : Observation) : bool :=
  match key_compare a b with
  | Gt => false
  | _ => true
  end.

Definition key_leb_rel (a b : Observation) : Prop := key_leb a b = true.

(** Stable insertion: [x] goes before the first record that is not below
    it. *)
Fixpoint insert_sorted (x : Observation) (l : list Observation) : list Observation :=
  match l with
  | [] => [x]
  | y :: l' => if key_leb x y then x :: l else y :: insert_sorted x l'
  end.

Fixpoint stable_sort (l : list Observation) : list Observation :=
  match l with
  | [] => []
  | x :: l' => insert_sorted x (stable_sort l')
  end.

(** [pd.DataFrame(records).sort_values(['Data', 'Tipo', 'Grupo',
    'Categoria'])]: a stable ascending sort on the four keys.  A frame built
    from no record has no column, and sorting it by a label raises. *)
Definition sort_values (records : list Observation) : result (list Observation) :=
  match records with
  | [] => Raise (KeyError "Data")
  | _ :: _ => Ok (stable_sort records)
  end.

(** ** The transformer *)

Module FinancialDataTransformer.

Definition month_map : list (string * Z) :=
  [("Jan", 1); ("Fev", 2); ("Mar", 3); ("Abr", 4); ("Mai", 5); ("Jun", 6);
   ("Jul", 7); ("Ago", 8); ("Set", 9); ("Out", 10); ("Nov", 11); ("Dez", 12)].

Definition month_names : list (Z * string) :=
  [(1, "Janeiro"); (2, "Fevereiro"); (3, "Março"); (4, "Abril");
   (5, "Maio"); (6, "Junho"); (7, "Julho"); (8, "Agosto");
   (9, "Setembro"); (10, "Outubro"); (11, "Novembro"); (12, "Dezembro")].

Definition required_columns : list string := ["Tipo"; "Grupo"; "Categoria"].

(** [[col for col in required_columns if col not in df.columns]] *)
Definition missing_columns (df : DataFrame) : list string :=
  filter (fun col => negb (existsb (String.eqb col) (columns df)))
         required_columns.

(** [[col for col in df.columns if '/' in col and col != 'Total']] *)
Definition date_columns (df : DataFrame) : list string :=
  filter (fun col => PyStr.contains "/" col && negb (col =? "Total")%string)
         (columns df).

Definition _validate_input_data (df : DataFrame) : result bool :=
  match missing_columns df with
  | _ :: _ =>
      Raise (ValueError ("Missing required columns: "
                         ++ PyStr.repr_names (missing_columns df)))
  | [] =>
      match date_columns df with
      | [] => Raise (ValueError "No date columns found in the format 'MMM/YY'")
      | _ :: _ => Ok true
      end
  end.

(** The month is [None] when [month_map.get] misses. *)
Definition _parse_date_column (col_name : string) : result (option Z * Z) :=
  match PyStr.split "/" (PyStr.strip col_name) with
  | [month_str; year_str] =>
      let month := dict_get String.eqb month_map (PyStr.strip month_str) in
      match PyStr.py_int year_str with
      | Some n => Ok (month, 2000 + n)
      | None => Raise ValueError_int
      end
  | _ => Raise ValueError_unpack
  end.

(** [f"{year}-{month:02d}-01"] *)
Definition date_str (year : Z) (month : Z) : string :=
  PyStr.of_int year ++ "-" ++ PyStr.format_02d month ++ "-01".

(** [round(float(value), 2) if pd.notnull(value) else 0.00] *)
Definition valor (value : spec_float) : spec_float :=
  if PyFloat.notnull value then PyFloat.round2 value else PyFloat.zero.

(** [pd.to_numeric(str(row[date_col]).replace(',', '.'), errors='coerce')] *)
Definition cell_value (c : cell) : spec_float :=
  PyFloat.to_numeric (PyStr.replace "," "." (py_str c)).

(** The body of the inner loop: the record for one row and one date
    column, or the exception that leaves the loop. *)
Definition observation (row : Row) (date_col : string) : result Observation :=
  '(month, year) <- _parse_date_column date_col ;;
  match month with
  | None => Raise TypeError_format
  | Some m =>
      let value := cell_value (row date_col) in
      match dict_get Z.eqb month_names m with
      | None => Raise (KeyError (PyStr.of_int m))
      | Some name =>
          match row "Categoria" with
          | CNaN | CNum _ _ => Raise AttributeError_strip
          | CStr categoria =>
              Ok {| Data := date_str year m;
                    Ano := year;
                    Mes := m;
                    Mes_Nome := name;
                    Tipo := row "Tipo";
                    Grupo := row "Grupo";
                    Categoria := PyStr.strip categoria;
                    Valor := valor value |}
          end
      end
  end.

(** [for date_col in date_columns: ... transformed_data.append(...)] *)
Fixpoint for_date_columns (row : Row) (cols : list string)
    (transformed_data : list Observation) : result (list Observation) :=
  match cols with
  | [] => Ok transformed_data
  | date_col :: cols' =>
      obs <- observation row date_col ;;
      for_date_columns row cols' (transformed_data ++ [obs])
  end.

(** [for _, row in df.iterrows(): ...] *)
Fixpoint for_rows (rs : list Row) (cols : list string)
    (transformed_data : list Observation) : result (list Observation) :=
  match rs with
  | [] => Ok transformed_data
  | row :: rs' =>
      transformed_data' <- for_date_columns row cols transformed_data ;;
      for_rows rs' cols transformed_data'
  end.

(** The reshape: the two loops of [transform_data], started on the empty
    list. *)
Definition reshape (df : DataFrame) : result (list Observation) :=
  for_rows (rows df) (date_columns df) [].

(** [transform_data], on the frame read from the input file; the result is
    the frame it returns, and an exception is logged and raised again.
    Reading and writing the files are left out. *)
Definition transform_data (df : DataFrame) : result (list Observation) :=
  _ <- _validate_input_data df ;;
  transformed_data <- reshape df ;;
  sort_values transformed_data.

End FinancialDataTransformer.

Import FinancialDataTransformer.

(** A row given by its cells; NaN under every other label. *)
Fixpoint row_of (cells : list (string * cell)) : Row :=
  fun label =>
    match cells with
    | [] => CNaN
    | (l, c) :: cells' => if (l =? label)%string then c else row_of cells' label
    end.

(** The loops as a traversal: every element gives a value, or the first
    exception wins. *)
Fixpoint map_result {A B : Type} (f : A -> result B) (l : list A)
  : result (list B) :=
  match l with
  | [] => Ok []
  | x :: l' => y <- f x ;; ys <- map_result f l' ;; Ok (y :: ys)
  end.

(** ** Vocabulary of the statements *)

(** The first part of the split header, stripped: the key looked up in
    [month_map]. *)
Definition month_token (col : string) : string :=
  PyStr.strip (hd EmptyString (PyStr.split "/" (PyStr.strip col))).

Definition unknown_month (col : string) : Prop :=
  dict_get String.eqb month_map (month_token col) = None.

(** Every date header parses, with a month of the table. *)
Definition well_formed_headers (df : DataFrame) : Prop :=
  forall col, In col (date_columns df) ->
    exists m y, _parse_date_column col = Ok (Some m, y).

(** Every Categoria cell is a [str]. *)
Definition text_categories (df : DataFrame) : Prop :=
  forall row, In row (rows df) -> is_str (row "Categoria"%string) = true.

(** Strictly below, on texts: byte-wise lexicographic order. *)
Definition str_lt (a b : string) : Prop := String.compare a b = Lt.

(** Strictly below and equal, on numbers: by the values, [m * 2^e] brought
    to one power of two. *)
Definition number_lt (a b : number) : Prop :=
  match a, b with
  | NInf true, NInf true => False
  | NInf true, _ => True
  | NDyadic _ _, NInf false => True
  | NDyadic m1 e1, NDyadic m2 e2 =>
      (m1 * 2 ^ (e1 - Z.min e1 e2) < m2 * 2 ^ (e2 - Z.min e1 e2))%Z
  | _, _ => False
  end.

Definition number_eqv (a b : number) : Prop :=
  match a, b with
  | NInf s, NInf t => s = t
  | NDyadic m1 e1, NDyadic m2 e2 =>
      (m1 * 2 ^ (e1 - Z.min e1 e2) = m2 * 2 ^ (e2 - Z.min e1 e2))%Z
  | _, _ => False
  end.

(** Strictly below, on key cells: numbers by value and texts by code point,
    a number before every text, a missing cell after everything else. *)
Definition cell_lt (a b : cell) : Prop :=
  match a, b with
  | CNum x _, CNum y _ => number_lt x y
  | CNum _ _, (CStr _ | CNaN) => True
  | CStr x, CStr y => str_lt x y
  | CStr _, CNaN => True
  | _, _ => False
  end.

(** The same key value: the same text, numbers of one value, or two missing
    cells. *)
Definition cell_eqv (a b : cell) : Prop :=
  match a, b with
  | CNum x _, CNum y _ => number_eqv x y
  | CStr x, CStr y => x = y
  | CNaN, CNaN => True
  | _, _ => False
  end.

(** The lexicographic order on the tuple (Data, Tipo, Grupo, Categoria). *)
Definition key_le (a b : Observation) : Prop :=
  str_lt (Data a) (Data b) \/
  (Data a = Data b /\
   (cell_lt (Tipo a) (Tipo b) \/
    (cell_eqv (Tipo a) (Tipo b) /\
     (cell_lt (Grupo a) (Grupo b) \/
      (cell_eqv (Grupo a) (Grupo b) /\
       (str_lt (Categoria a) (Categoria b) \/
        Categoria a = Categoria b)))))).

(** The row with the cell [c] under [label]. *)
Definition set_cell (row : Row) (label : string) (c : cell) : Row :=
  fun l => if (l =? label)%string then c else row l.

(** The frame of the end-to-end scenario. *)
Definition scenario_row : Row :=
  row_of [("Tipo", CStr "Entrada"); ("Grupo", CStr "Vendas");
          ("Categoria", CStr " Produtos ");
          ("Jan/24", CStr "1.500,00"); ("Fev/24", CStr "2000")].

Definition scenario_df : DataFrame :=
  {| columns := ["Tipo"; "Grupo"; "Categoria"; "Jan/24"; "Fev/24"];
     rows := [scenario_row] |}.

(** A frame whose rows and date columns come in descending order, with a
    Total column. *)
Definition shuffled_df : DataFrame :=
  {| columns := ["Tipo"; "Grupo"; "Categoria"; "Fev/24"; "Jan/24"; "Total"];
     rows := [row_of [("Tipo", CStr "Saída"); ("Grupo", CStr "Custos");
                      ("Categoria", CStr "Frete");
                      ("Fev/24", CStr "7,5"); ("Jan/24", CStr "3");
                      ("Total", CStr "10,5")];
              row_of [("Tipo", CStr "Entrada"); ("Grupo", CStr "Vendas");
                      ("Categoria", CStr "Produtos");
                      ("Fev/24", CStr "20"); ("Jan/24", CStr "10");
                      ("Total", CStr "30")]] |}.

Definition record (data : string) (ano mes : Z) (mes_nome : string)
    (tipo grupo categoria : string) (v : spec_float) : Observation :=
  {| Data := data; Ano := ano; Mes := mes; Mes_Nome := mes_nome;
     Tipo := CStr tipo; Grupo := CStr grupo; Categoria := categoria;
     Valor := v |}.

Definition shuffled_out : list Observation :=
  [record "2024-01-01" 2024 1 "Janeiro" "Entrada" "Vendas" "Produtos"
          (PyFloat.of_Z 10);
   record "2024-01-01" 2024 1 "Janeiro" "Saída" "Custos" "Frete"
          (PyFloat.of_Z 3);
   record "2024-02-01" 2024 2 "Fevereiro" "Entrada" "Vendas" "Produtos"
          (PyFloat.of_Z 20);
   record "2024-02-01" 2024 2 "Fevereiro" "Saída" "Custos" "Frete"
          (PyFloat.of_decimal false 75 (-1))].

(** The two digits of a number below 100, the tens first. *)
Definition two_digits (n : Z) : string :=
  String (ascii_of_N (48 + Z.to_N (n / 10)))
         (String (ascii_of_N (48 + Z.to_N (n mod 10))) EmptyString).


(** A frame with a quarter column next to the identifying ones. *)
Definition quarter_df : DataFrame :=
  {| columns := ["Tipo"; "Grupo"; "Categoria"; "T1/24"];
     rows := [row_of [("Tipo", CStr "Entrada"); ("Grupo", CStr "Vendas");
                      ("Categoria", CStr "Produtos"); ("T1/24", CStr "10")]] |}.

(** A frame whose second row has no Categoria. *)
Definition gap_df : DataFrame :=
  {| columns := ["Tipo"; "Grupo"; "Categoria"; "Jan/24"];
     rows := [row_of [("Tipo", CStr "Entrada"); ("Grupo", CStr "Vendas");
                      ("Categoria", CStr "Produtos"); ("Jan/24", CStr "10")];
              row_of [("Tipo", CStr "Entrada"); ("Grupo", CStr "Vendas");
                      ("Jan/24", CStr "20")]] |}.

(** A table whose Grupo column and date column were read as numbers. *)
Definition numbered_df : DataFrame :=
  {| columns := ["Tipo"; "Grupo"; "Categoria"; "Jan/24"];
     rows := [row_of [("Tipo", CStr "Entrada"); ("Grupo", CNum (NDyadic 10 0) "10");
                      ("Categoria", CStr "Produtos");
                      ("Jan/24", CNum (NDyadic 5 (-1)) "2.5")];
              row_of [("Tipo", CStr "Entrada"); ("Grupo", CNum (NDyadic 9 0) "9");
                      ("Categoria", CStr "Frete");
                      ("Jan/24", CNum (NDyadic 1 0) "1.0")]] |}.

(** A table whose Categoria column was read as numbers. *)
Definition coded_df : DataFrame :=
  {| columns := ["Tipo"; "Grupo"; "Categoria"; "Jan/24"];
     rows := [row_of [("Tipo", CStr "Entrada"); ("Grupo", CStr "Vendas");
                      ("Categoria", CNum (NDyadic 101 0) "101");
                      ("Jan/24", CStr "10")]] |}.

(** ** The summary and the command line *)

(** How many times the character [c] occurs in [s]. *)
Fixpoint count_char (c : ascii) (s : string) : nat :=
  match s with
  | EmptyString => O
  | String a r => (if Ascii.eqb a c then 1 else 0) + count_char c r
  end.

(** [s.startswith(t)] *)
Fixpoint starts_with (t s : string) : bool :=
  match t, s with
  | EmptyString, _ => true
  | String a t', String b s' => Ascii.eqb a b && starts_with t' s'
  | String _ _, EmptyString => false
  end.

(** [old in s] *)
Fixpoint occurs (old s : string) : bool :=
  match s with
  | EmptyString => starts_with old EmptyString
  | String _ r => starts_with old s || occurs old r
  end.

(** [s.replace(old, new)] for a non-empty [old]: the occurrences are taken
    from the left and do not overlap.  [skip] counts the characters of an
    occurrence still to pass over. *)
Fixpoint replace_from (old new : string) (skip : nat) (s : string) : string :=
  match s with
  | EmptyString => EmptyString
  | String c r =>
      match skip with
      | S k => replace_from old new k r
      | O =>
          if starts_with old s
          then (new ++ replace_from old new (Nat.pred (String.length old)) r)%string
          else String c (replace_from old new O r)
      end
  end.

Definition str_replace (old new s : string) : string :=
  replace_from old new O s.

(** [series.min()] and [series.max()] on a column of texts that has a first
    value. *)
Definition series_min (x : string) (l : list string) : string :=
  fold_left (fun m y => if String.ltb y m then y else m) l x.

Definition series_max (x : string) (l : list string) : string :=
  fold_left (fun m y => if String.ltb m y then y else m) l x.

(** The values of a column, its missing cells dropped. *)
Definition dropna (l : list cell) : list cell :=
  filter (fun c => match c with CNaN => false | _ => true end) l.

(** The same value: the same text, or numbers of one value. *)
Definition cell_eqb (a b : cell) : bool :=
  match cell_compare a b with
  | Eq => true
  | _ => false
  end.

(** The values of a column, each once. *)
Fixpoint distinct (l : list cell) : list cell :=
  match l with
  | [] => []
  | x :: l' => if existsb (cell_eqb x) l' then distinct l' else x :: distinct l'
  end.

(** [series.nunique()]: the number of distinct values, the missing ones not
    counted. *)
Definition nunique (l : list cell) : nat := length (distinct (dropna l)).

(** [cell == label] *)
Definition cell_is (label : string) (c : cell) : bool :=
  match c with
  | CStr s => (s =? label)%string
  | _ => false
  end.

(** [df[df['Tipo'] == label]['Valor']] *)
Definition valores_of (label : string) (df : list Observation) : list spec_float :=
  map Valor (filter (fun o => cell_is label (Tipo o)) df).

(** The dict [generate_summary_stats] returns. *)
Record Summary : Type := {
  date_range_start : string;
  date_range_end : string;
  total_entries : nat;
  total_income : spec_float;
  total_expenses : spec_float;
  unique_groups : nat;
  unique_categories : nat
}.

(** What [main] comes to. *)
Inductive failure : Type :=
  | ReadError                      (* [pd.read_csv] raised *)
  | TransformError (e : exception) (* validation, the loops or the sort raised *)
  | WriteError.                    (* [to_csv] raised *)

Inductive outcome : Type :=
  | Exit (code : Z)                (* the usage message, then [sys.exit(code)] *)
  | Failed (f : failure)           (* the exception is logged and raised again *)
  | Completed (output_file : string) (written : list Observation)
              (summary : Summary).

Section Host.

(** [series.sum()] of a float column, left to the host. *)
Variable series_sum : list spec_float -> spec_float.

(** The file system: the frame [pd.read_csv] gives for a path, if it gives
    one, and whether [to_csv] can write to a path. *)
Variable read_csv : string -> option DataFrame.
Variable to_csv : string -> bool.

(** [generate_summary_stats], on a frame built from records; a frame built
    from no record has no column, and [df['Data']] raises. *)
Definition generate_summary_stats (df : list Observation) : result Summary :=
  match df with
  | [] => Raise (KeyError "Data")
  | o :: df' =>
      Ok {| date_range_start := series_min (Data o) (map Data df');
            date_range_end := series_max (Data o) (map Data df');
            total_entries := length df;
            total_income := series_sum (valores_of "Entrada" df);
            total_expenses := series_sum (valores_of "Saída" df);
            unique_groups := nunique (map Grupo df);
            unique_categories := nunique (map (fun r => CStr (Categoria r)) df) |}
  end.

(** [input_file.replace('.csv', '_optimized.csv')] *)
Definition output_file_of (input_file : string) : string :=
  str_replace ".csv" "_optimized.csv" input_file.

(** [main], on [sys.argv]: the frame is read, transformed, written, and
    summed up. *)
Definition main (argv : list string) : outcome :=
  match argv with
  | [_; input_file] =>
      let output_file := output_file_of input_file in
      match read_csv input_file with
      | None => Failed ReadError
      | Some df =>
          match transform_data df with
          | Raise e => Failed (TransformError e)
          | Ok transformed_df =>
              if to_csv output_file then
                match generate_summary_stats transformed_df with
                | Ok summary => Completed output_file transformed_df summary
                | Raise e => Failed (TransformError e)
                end
              else Failed WriteError
          end
      end
  | _ => Exit 1
  end.

End Host.

(** ** Vocabulary of the further statements *)

(** At or below, by the date alone. *)
Definition data_leb (a b : Observation) : Prop :=
  String.leb (Data a) (Data b) = true.

(** Two rows that agree under the labels the run reads: the date columns
    [cols] and the three identifying labels. *)
Definition same_read_cells (cols : list string) (r r' : Row) : Prop :=
  forall label, In label cols \/ In label required_columns -> r label = r' label.

(** A sum for the sample runs: the values added from the left. *)
Definition sum_left (l : list spec_float) : spec_float :=
  fold_left (SFadd PyFloat.prec PyFloat.emax) l PyFloat.zero.

(** The summary of [shuffled_out]. *)
Definition shuffled_summary : Summary :=
  {| date_range_start := "2024-01-01";
     date_range_end := "2024-02-01";
     total_entries := 4;
     total_income := sum_left [PyFloat.of_Z 10; PyFloat.of_Z 20];
     total_expenses := sum_left [PyFloat.of_Z 3; PyFloat.of_decimal false 75 (-1)];
     unique_groups := 2;
     unique_categories := 2 |}.

(** A file system for the sample runs: two input files, every path
    writable. *)
Definition sample_read (path : string) : option DataFrame :=
  if (path =? "balancete.csv")%string then Some shuffled_df
  else if (path =? "trimestres.csv")%string then Some quarter_df
  else None.

Definition sample_write (path : string) : bool := true.

(** * Properties *)

Local Open Scope nat_scope.

(** ** The error monad and traversals *)

Lemma bind_ok {A B : Type} (r : result A) (k : A -> result B) (b : B) :
  bind r k = Ok b -> exists a, r = Ok a /\ k a = Ok b.
Proof.
  destruct r as [a|e]; simpl; intros H; [eauto | discriminate].
Qed.

Lemma raises_bind_l {A B : Type} (r : result A) (k : A -> result B) :
  raises r -> raises (bind r k).
Proof.
  intros [e ->]. now exists e.
Qed.

Lemma ok_or_raises {A : Type} (r : result A) :
  (exists a, r = Ok a) \/ raises r.
Proof.
  destruct r as [a|e]; [left; eauto | right; now exists e].
Qed.

Section MapResult.
Context {A B : Type}.
Variable f : A -> result B.

Lemma map_result_length (l : list A) (l' : list B) :
  map_result f l = Ok l' -> length l' = length l.
Proof.
  revert l'. induction l as [|x l IH]; simpl; intros l' H.
  - now inversion H.
  - apply bind_ok in H as (y & _ & H).
    apply bind_ok in H as (ys & Hys & H).
    inversion H; subst. simpl. f_equal. now apply IH.
Qed.

Lemma map_result_nth (l : list A) (l' : list B) (i : nat) (x : A) :
  map_result f l = Ok l' -> nth_error l i = Some x ->
  exists y, nth_error l' i = Some y /\ f x = Ok y.
Proof.
  revert l' i. induction l as [|x0 l IH]; simpl; intros l' i H Hi.
  - destruct i; discriminate.
  - apply bind_ok in H as (y & Hy & H).
    apply bind_ok in H as (ys & Hys & H).
    inversion H; subst.
    destruct i as [|i]; simpl in *.
    + inversion Hi; subst. eauto.
    + eauto.
Qed.

Lemma map_result_total (l : list A) :
  (forall x, In x l -> exists y, f x = Ok y) ->
  exists l', map_result f l = Ok l'.
Proof.
  induction l as [|x l IH]; simpl; intros H.
  - eauto.
  - destruct (H x) as [y Hy]; [now left|].
    destruct IH as [ys Hys]; [intros; apply H; now right|].
    rewrite Hy, Hys. simpl. eauto.
Qed.

Lemma map_result_raises (l : list A) (x : A) :
  In x l -> raises (f x) -> raises (map_result f l).
Proof.
  induction l as [|x0 l IH]; simpl; intros Hin Hx; [contradiction|].
  destruct (f x0) as [y|e] eqn:E; simpl; [|now exists e].
  destruct Hin as [->|Hin].
  - destruct Hx as [e He]. congruence.
  - destruct (IH Hin Hx) as [e ->]. now exists e.
Qed.

Lemma map_result_first_raise (l1 l2 : list A) (x : A) (e : exception) :
  (forall x', In x' l1 -> exists y, f x' = Ok y) ->
  f x = Raise e ->
  map_result f (l1 ++ x :: l2) = Raise e.
Proof.
  induction l1 as [|x0 l1 IH]; simpl; intros H Hx.
  - now rewrite Hx.
  - destruct (H x0) as [y Hy]; [now left|]. rewrite Hy. simpl.
    rewrite IH; auto.
Qed.
End MapResult.

Lemma for_date_columns_spec (row : Row) (cols : list string)
    (acc : list Observation) :
  for_date_columns row cols acc =
  (l <- map_result (observation row) cols ;; Ok (acc ++ l)%list).
Proof.
  revert acc. induction cols as [|c cols IH]; simpl; intros acc.
  - now rewrite app_nil_r.
  - destruct (observation row c) as [o|e]; simpl; [|reflexivity].
    rewrite IH.
    destruct (map_result (observation row) cols) as [l|e]; simpl;
      [|reflexivity].
    now rewrite <- app_assoc.
Qed.

Lemma for_rows_spec (rs : list Row) (cols : list string)
    (acc : list Observation) :
  for_rows rs cols acc =
  (ls <- map_result (fun row => map_result (observation row) cols) rs ;;
   Ok (acc ++ concat ls)%list).
Proof.
  revert acc. induction rs as [|r rs IH]; simpl; intros acc.
  - now rewrite app_nil_r.
  - rewrite for_date_columns_spec.
    destruct (map_result (observation r) cols) as [l|e]; simpl; [|reflexivity].
    rewrite IH.
    destruct (map_result _ rs) as [ls|e]; simpl; [|reflexivity].
    now rewrite <- app_assoc.
Qed.

Lemma reshape_spec (df : DataFrame) :
  reshape df =
  (ls <- map_result (fun row => map_result (observation row) (date_columns df))
                    (rows df) ;;
   Ok (concat ls)).
Proof.
  unfold reshape. now rewrite for_rows_spec.
Qed.

(** Lists of lists of one width. *)
Lemma concat_uniform_length {X : Type} (ls : list (list X)) (n : nat) :
  (forall l, In l ls -> length l = n) ->
  length (concat ls) = length ls * n.
Proof.
  induction ls as [|l ls IH]; simpl; intros H; [reflexivity|].
  rewrite length_app, IH, (H l); auto.
Qed.

Lemma concat_uniform_nth {X : Type} (ls : list (list X)) (n i j : nat)
    (l : list X) :
  (forall l', In l' ls -> length l' = n) ->
  nth_error ls i = Some l -> j < n ->
  nth_error (concat ls) (i * n + j) = nth_error l j.
Proof.
  revert i. induction ls as [|l0 ls IH]; intros i H Hi Hj.
  - destruct i; discriminate.
  - assert (Hl0 : length l0 = n) by (apply H; now left).
    destruct i as [|i]; simpl in *.
    + inversion Hi; subst. apply nth_error_app1. lia.
    + rewrite nth_error_app2 by lia.
      replace (n + i * n + j - length l0) with (i * n + j) by lia.
      apply IH; auto.
Qed.

(** What a completed reshape holds: one record for each row and each date
    column, in row-major order. *)
Lemma reshape_ok_shape (df : DataFrame) (obs : list Observation) :
  reshape df = Ok obs ->
  length obs = length (rows df) * length (date_columns df) /\
  forall i j row col,
    nth_error (rows df) i = Some row ->
    nth_error (date_columns df) j = Some col ->
    exists o,
      nth_error obs (i * length (date_columns df) + j) = Some o /\
      observation row col = Ok o.
Proof.
  rewrite reshape_spec. intros H.
  apply bind_ok in H as (ls & Hls & H). inversion H; subst; clear H.
  assert (Hw : forall l, In l ls -> length l = length (date_columns df)).
  { intros l Hl. apply In_nth_error in Hl as [i Hi].
    assert (Hlen := map_result_length _ _ _ Hls).
    assert (Hi' : i < length (rows df)).
    { rewrite <- Hlen. apply nth_error_Some. congruence. }
    apply nth_error_Some in Hi'.
    destruct (nth_error (rows df) i) as [row|] eqn:Er; [|congruence].
    destruct (map_result_nth _ _ _ _ _ Hls Er) as (l' & Hl' & Hrow).
    assert (l' = l) by congruence. subst l'.
    now apply map_result_length in Hrow. }
  split.
  - rewrite (concat_uniform_length _ _ Hw).
    now rewrite (map_result_length _ _ _ Hls).
  - intros i j row col Hi Hj.
    destruct (map_result_nth _ _ _ _ _ Hls Hi) as (l & Hl & Hrow).
    destruct (map_result_nth _ _ _ _ _ Hrow Hj) as (o & Ho & Hobs).
    exists o. split; [|exact Hobs].
    rewrite (concat_uniform_nth _ _ _ _ _ Hw Hl); [exact Ho|].
    apply nth_error_Some. congruence.
Qed.

Lemma map_result_raise_inv {A B : Type} (f : A -> result B) (l : list A)
    (e : exception) :
  map_result f l = Raise e -> exists x, In x l /\ f x = Raise e.
Proof.
  induction l as [|x l IH]; simpl; intros H; [discriminate|].
  destruct (f x) as [y|e'] eqn:E; simpl in H.
  - destruct (map_result f l) as [ys|e'']; simpl in H; [discriminate|].
    destruct IH as (x' & Hin & Hx'); [congruence|]. eauto.
  - exists x. split; [now left | congruence].
Qed.

(** ** The month tables and the parser *)

Lemma month_map_range (k : string) (m : Z) :
  dict_get String.eqb month_map k = Some m -> (1 <= m <= 12)%Z.
Proof.
  unfold month_map. cbn [dict_get].
  repeat match goal with
         | |- context [String.eqb ?a k] => destruct (String.eqb a k)
         end; intros H; inversion H; lia.
Qed.

Lemma month_names_total (m : Z) :
  (1 <= m <= 12)%Z -> exists name, dict_get Z.eqb month_names m = Some name.
Proof.
  intros H.
  assert (m = 1 \/ m = 2 \/ m = 3 \/ m = 4 \/ m = 5 \/ m = 6 \/ m = 7 \/
          m = 8 \/ m = 9 \/ m = 10 \/ m = 11 \/ m = 12)%Z as Hm by lia.
  repeat destruct Hm as [->|Hm]; try subst m; simpl; eauto.
Qed.

Lemma parse_date_column_month (col : string) (m y : Z) :
  _parse_date_column col = Ok (Some m, y) -> (1 <= m <= 12)%Z.
Proof.
  unfold _parse_date_column.
  destruct (PyStr.split "/" (PyStr.strip col)) as [|a [|b [|c l]]];
    try discriminate.
  destruct (PyStr.py_int b); [|discriminate].
  intros H. inversion H as [[Hm Hy]].
  now apply month_map_range in Hm.
Qed.

Lemma parse_date_column_raise (col : string) (e : exception) :
  _parse_date_column col = Raise e ->
  e = ValueError_unpack \/ e = ValueError_int.
Proof.
  unfold _parse_date_column.
  destruct (PyStr.split "/" (PyStr.strip col)) as [|a [|b [|c l]]];
    try (intros H; inversion H; now left).
  destruct (PyStr.py_int b); intros H; inversion H. now right.
Qed.

Lemma parse_date_column_unknown (col : string) :
  unknown_month col ->
  raises (_parse_date_column col) \/
  exists y, _parse_date_column col = Ok (None, y).
Proof.
  unfold unknown_month, month_token, _parse_date_column.
  destruct (PyStr.split "/" (PyStr.strip col)) as [|a [|b [|c l]]]; simpl;
    intros H; try (left; eexists; reflexivity).
  rewrite H.
  destruct (PyStr.py_int b) as [n|]; [right; eauto | left; eexists; reflexivity].
Qed.

(** ** One record *)

Lemma observation_total (row : Row) (col : string) (m y : Z) :
  _parse_date_column col = Ok (Some m, y) ->
  is_str (row "Categoria"%string) = true ->
  exists o, observation row col = Ok o.
Proof.
  intros Hp Hc. unfold observation. rewrite Hp. cbn [bind].
  destruct (month_names_total m (parse_date_column_month _ _ _ Hp)) as [name ->].
  destruct (row "Categoria"%string); [eauto | discriminate | discriminate].
Qed.

Lemma observation_not_str_categoria (row : Row) (col : string) (m y : Z) :
  _parse_date_column col = Ok (Some m, y) ->
  is_str (row "Categoria"%string) = false ->
  observation row col = Raise AttributeError_strip.
Proof.
  intros Hp Hc. unfold observation. rewrite Hp. cbn [bind].
  destruct (month_names_total m (parse_date_column_month _ _ _ Hp)) as [name ->].
  destruct (row "Categoria"%string); [discriminate | reflexivity | reflexivity].
Qed.

Lemma observation_unknown_month (row : Row) (col : string) :
  unknown_month col -> raises (observation row col).
Proof.
  intros H. unfold observation.
  destruct (parse_date_column_unknown col H) as [[e ->]|[y ->]]; cbn [bind];
    eexists; reflexivity.
Qed.

Lemma observation_strip_inv (row : Row) (col : string) :
  observation row col = Raise AttributeError_strip ->
  is_str (row "Categoria"%string) = false.
Proof.
  unfold observation.
  destruct (_parse_date_column col) as [[[m|] y]|e] eqn:Ep; cbn [bind];
    try discriminate.
  - destruct (dict_get Z.eqb month_names m); [|discriminate].
    destruct (row "Categoria"%string); [discriminate | reflexivity | reflexivity].
  - destruct (parse_date_column_raise _ _ Ep); subst; discriminate.
Qed.

(** The fields of a record, read off the loop body. *)
Lemma observation_fields (row : Row) (col : string) (o : Observation) :
  observation row col = Ok o ->
  exists m y name categoria,
    _parse_date_column col = Ok (Some m, y) /\
    dict_get Z.eqb month_names m = Some name /\
    row "Categoria"%string = CStr categoria /\
    o = {| Data := date_str y m; Ano := y; Mes := m; Mes_Nome := name;
           Tipo := row "Tipo"%string; Grupo := row "Grupo"%string;
           Categoria := PyStr.strip categoria;
           Valor := valor (cell_value (row col)) |}.
Proof.
  unfold observation.
  destruct (_parse_date_column col) as [[[m|] y]|e] eqn:Ep; cbn [bind];
    try discriminate.
  destruct (dict_get Z.eqb month_names m) as [name|] eqn:En; [|discriminate].
  destruct (row "Categoria"%string) as [c| |v t] eqn:Ec;
    [|discriminate|discriminate].
  intros H. inversion H. exists m, y, name, c. auto.
Qed.

(** ** The reshape as a whole *)

Lemma reshape_total (df : DataFrame) :
  well_formed_headers df -> text_categories df ->
  exists obs, reshape df = Ok obs.
Proof.
  intros Hh Hc. rewrite reshape_spec.
  destruct (map_result_total
              (fun row => map_result (observation row) (date_columns df))
              (rows df)) as [ls Hls].
  - intros row Hrow. apply map_result_total.
    intros col Hcol. destruct (Hh col Hcol) as (m & y & Hp).
    eapply observation_total; eauto.
  - rewrite Hls. simpl. eauto.
Qed.

Lemma validate_ok_date_columns (df : DataFrame) :
  _validate_input_data df = Ok true ->
  missing_columns df = [] /\ date_columns df <> [].
Proof.
  unfold _validate_input_data.
  destruct (missing_columns df); [|discriminate].
  destruct (date_columns df); [discriminate|].
  split; [reflexivity | discriminate].
Qed.

(** ** Row count *)

(** C1, as amended: for every table that passes validation, whose date
    headers all parse with a month of the table and whose Categoria cells are
    all text, the reshape completes with exactly (rows) x (date columns)
    records, the record of row [i] and date column [j] at place
    [i * columns + j]. *)
Theorem C1_row_count (df : DataFrame) :
  _validate_input_data df = Ok true ->
  well_formed_headers df ->
  text_categories df ->
  exists obs,
    reshape df = Ok obs /\
    length obs = length (rows df) * length (date_columns df) /\
    forall i j row col,
      nth_error (rows df) i = Some row ->
      nth_error (date_columns df) j = Some col ->
      exists o,
        nth_error obs (i * length (date_columns df) + j) = Some o /\
        observation row col = Ok o.
Proof.
  intros _ Hh Hc.
  destruct (reshape_total df Hh Hc) as [obs Hobs].
  exists obs. split; [exact Hobs|].
  now apply reshape_ok_shape.
Qed.

Lemma C1_row_count_witness :
  exists obs,
    reshape scenario_df = Ok obs /\
    length obs = length (rows scenario_df) * length (date_columns scenario_df) /\
    forall i j row col,
      nth_error (rows scenario_df) i = Some row ->
      nth_error (date_columns scenario_df) j = Some col ->
      exists o,
        nth_error obs (i * length (date_columns scenario_df) + j) = Some o /\
        observation row col = Ok o.
Proof.
  apply (C1_row_count scenario_df).
  - reflexivity.
  - intros col [<-|[<-|[]]]; vm_compute; eauto.
  - intros row [<-|[]]; reflexivity.
Defined.

(** C1 as stated fails: this table passes validation, has one row and one
    date column, and the reshape raises on the header "T1/24" instead of
    producing a record. *)
Lemma C1_counterexample :
  _validate_input_data quarter_df = Ok true /\
  ~ exists obs,
      reshape quarter_df = Ok obs /\
      length obs = length (rows quarter_df) * length (date_columns quarter_df).
Proof.
  split; [reflexivity|].
  intros (obs & H & _). vm_compute in H. discriminate.
Qed.

(** ** Cells that are no number *)

Lemma valor_of_nan (v : spec_float) :
  PyFloat.isnan v = true -> valor v = PyFloat.zero.
Proof.
  intros H. unfold valor, PyFloat.notnull. now rewrite H.
Qed.

Lemma date_column_not_categoria (df : DataFrame) (col : string) :
  In col (date_columns df) -> ("Categoria" =? col)%string = false.
Proof.
  unfold date_columns. intros H. apply filter_In in H as [_ H].
  apply andb_true_iff in H as [H _].
  destruct (String.eqb_spec "Categoria" col) as [<-|]; [discriminate|reflexivity].
Qed.

(** C4: a date-column cell whose text, commas turned into periods, is no
    number gives the value 0.00, and its record is in the output at the
    place of its row and column; whatever that cell holds, the record is
    built.  The empty text, a word, a missing cell and "1.500,00" are cells
    that are no number. *)
Theorem C4_zero_fill (df : DataFrame) (obs : list Observation) (i j : nat)
    (row : Row) (col : string) :
  _validate_input_data df = Ok true ->
  reshape df = Ok obs ->
  nth_error (rows df) i = Some row ->
  nth_error (date_columns df) j = Some col ->
  PyFloat.isnan (cell_value (row col)) = true ->
  (exists o,
     nth_error obs (i * length (date_columns df) + j) = Some o /\
     observation row col = Ok o /\
     Valor o = PyFloat.zero) /\
  (forall c, exists o, observation (set_cell row col c) col = Ok o) /\
  (forall c,
     In c [CStr ""; CStr "abc"; CNaN; CStr "1.500,00"] ->
     PyFloat.isnan (cell_value c) = true).
Proof.
  intros _ Hobs Hi Hj Hnan.
  destruct (reshape_ok_shape df obs Hobs) as [_ Hnth].
  destruct (Hnth i j row col Hi Hj) as (o & Ho & Hrec).
  destruct (observation_fields _ _ _ Hrec) as (m & y & name & c & Hp & _ & Hc & Heq).
  split; [|split].
  - exists o. repeat split; auto.
    subst o. simpl. now apply valor_of_nan.
  - intros c'. apply (observation_total _ col m y Hp).
    unfold set_cell.
    rewrite (date_column_not_categoria df col (nth_error_In _ _ Hj)).
    now rewrite Hc.
  - intros c' [<-|[<-|[<-|[<-|[]]]]]; reflexivity.
Qed.

Lemma C4_zero_fill_witness :
  (exists o,
     nth_error [record "2024-01-01" 2024 1 "Janeiro" "Entrada" "Vendas"
                       "Produtos" PyFloat.zero;
                record "2024-02-01" 2024 2 "Fevereiro" "Entrada" "Vendas"
                       "Produtos" (PyFloat.of_Z 2000)]
               (0 * length (date_columns scenario_df) + 0) = Some o /\
     observation scenario_row "Jan/24" = Ok o /\
     Valor o = PyFloat.zero) /\
  (forall c, exists o, observation (set_cell scenario_row "Jan/24" c) "Jan/24" = Ok o) /\
  (forall c,
     In c [CStr ""; CStr "abc"; CNaN; CStr "1.500,00"] ->
     PyFloat.isnan (cell_value c) = true).
Proof.
  apply (C4_zero_fill scenario_df _ 0 0 scenario_row "Jan/24"); reflexivity.
Defined.

(** ** Headers with an unknown month *)

Lemma transform_data_raises_of_reshape (df : DataFrame) :
  raises (reshape df) -> raises (transform_data df).
Proof.
  intros [e He]. unfold transform_data.
  destruct (_validate_input_data df) as [b|e']; cbn [bind];
    [|eexists; reflexivity].
  rewrite He. eexists; reflexivity.
Qed.

Lemma transform_data_no_rows (df : DataFrame) :
  rows df = [] -> raises (transform_data df).
Proof.
  intros H. unfold transform_data, reshape. rewrite H.
  destruct (_validate_input_data df) as [b|e']; cbn [bind for_rows];
    eexists; reflexivity.
Qed.

Lemma reshape_raises_of_column (df : DataFrame) (col : string) :
  rows df <> [] ->
  In col (date_columns df) ->
  (forall row, raises (observation row col)) ->
  raises (reshape df).
Proof.
  intros Hrows Hcol Hraise. rewrite reshape_spec.
  destruct (rows df) as [|row rs]; [congruence|].
  apply raises_bind_l.
  apply (map_result_raises _ (row :: rs) row); [now left|].
  now apply (map_result_raises _ _ col).
Qed.

(** C5, as amended: on a header whose month token is not in the table the
    parser does not raise for the miss; it returns None as the month, and
    raises only where the header has not two parts or its year is no
    integer.  The run aborts all the same: the record of such a column
    cannot be built, and [transform_data] raises on every table that has
    such a date column. *)
Theorem C5_unknown_month_aborts (df : DataFrame) (col : string) :
  In col (date_columns df) ->
  unknown_month col ->
  (forall e, _parse_date_column col = Raise e ->
             e = ValueError_unpack \/ e = ValueError_int) /\
  (forall m_str y_str n,
     PyStr.split "/" (PyStr.strip col) = [m_str; y_str] ->
     PyStr.py_int y_str = Some n ->
     _parse_date_column col = Ok (None, (2000 + n)%Z)) /\
  (forall row, raises (observation row col)) /\
  raises (transform_data df).
Proof.
  intros Hcol Hunk. repeat split.
  - apply parse_date_column_raise.
  - intros m_str y_str n Hs Hn.
    unfold unknown_month, month_token in Hunk. rewrite Hs in Hunk.
    unfold _parse_date_column. rewrite Hs, Hn. cbn [hd] in Hunk.
    now rewrite Hunk.
  - intros row. now apply observation_unknown_month.
  - destruct (rows df) as [|row rs] eqn:Er.
    + now apply transform_data_no_rows.
    + apply transform_data_raises_of_reshape.
      apply (reshape_raises_of_column df col); auto.
      * rewrite Er. discriminate.
      * intros row'. now apply observation_unknown_month.
Qed.

Lemma C5_unknown_month_aborts_witness :
  (forall e, _parse_date_column "T1/24" = Raise e ->
             e = ValueError_unpack \/ e = ValueError_int) /\
  (forall m_str y_str n,
     PyStr.split "/" (PyStr.strip "T1/24") = [m_str; y_str] ->
     PyStr.py_int y_str = Some n ->
     _parse_date_column "T1/24" = Ok (None, (2000 + n)%Z)) /\
  (forall row, raises (observation row "T1/24")) /\
  raises (transform_data quarter_df).
Proof.
  apply (C5_unknown_month_aborts quarter_df "T1/24").
  - simpl. now left.
  - reflexivity.
Defined.

(** C5 as stated fails: the month token "Xyz" is not in the table, and the
    parser returns the pair (None, 2024) instead of raising. *)
Lemma C5_counterexample :
  unknown_month "Xyz/24" /\
  _parse_date_column "Xyz/24" = Ok (None, 2024%Z) /\
  ~ raises (_parse_date_column "Xyz/24").
Proof.
  repeat split; try reflexivity.
  intros [e H]. vm_compute in H. discriminate.
Qed.

(** ** Categoria cells that are no text *)

Lemma first_not_str_categoria (rs : list Row) (row : Row) :
  In row rs -> is_str (row "Categoria"%string) = false ->
  exists l1 r l2,
    rs = (l1 ++ r :: l2)%list /\
    is_str (r "Categoria"%string) = false /\
    forall x, In x l1 -> is_str (x "Categoria"%string) = true.
Proof.
  induction rs as [|r0 rs IH]; intros Hin Hnan; [contradiction|].
  destruct (is_str (r0 "Categoria"%string)) eqn:E0.
  - destruct Hin as [->|Hin]; [congruence|].
    destruct (IH Hin Hnan) as (l1 & r & l2 & -> & Hr & Hl1).
    exists (r0 :: l1), r, l2. repeat split; auto.
    intros x [<-|Hx]; [exact E0 | auto].
  - exists [], r0, rs. repeat split; auto; intros x [].
Qed.

Lemma reshape_strip_error (df : DataFrame) (row : Row) :
  date_columns df <> [] ->
  well_formed_headers df ->
  In row (rows df) -> is_str (row "Categoria"%string) = false ->
  reshape df = Raise AttributeError_strip.
Proof.
  intros Hne Hh Hin Hnan. rewrite reshape_spec.
  destruct (first_not_str_categoria _ _ Hin Hnan) as (l1 & r & l2 & -> & Hr & Hl1).
  rewrite (map_result_first_raise _ l1 l2 r AttributeError_strip);
    [reflexivity | |].
  - intros x Hx. apply map_result_total.
    intros col Hcol. destruct (Hh col Hcol) as (m & y & Hp).
    eapply observation_total; eauto.
  - unfold well_formed_headers in Hh.
    destruct (date_columns df) as [|col cols] eqn:Ec; [congruence|].
    destruct (Hh col) as (m & y & Hp); [now left|].
    cbn [map_result]. now rewrite (observation_not_str_categoria r col m y Hp Hr).
Qed.

Lemma reshape_strip_error_inv (df : DataFrame) :
  reshape df = Raise AttributeError_strip ->
  exists row, In row (rows df) /\ is_str (row "Categoria"%string) = false.
Proof.
  rewrite reshape_spec. intros H.
  destruct (map_result _ (rows df)) as [ls|e] eqn:E; [discriminate|].
  cbn [bind] in H. inversion H; subst e.
  apply map_result_raise_inv in E as (row & Hrow & Hr).
  apply map_result_raise_inv in Hr as (col & _ & Hc).
  exists row. split; [exact Hrow|]. now apply observation_strip_inv in Hc.
Qed.

(** C10: validation looks at the column labels only, so a table can pass it
    and still make the reshape fail.  If a table passes validation and some
    row has a missing Categoria, [transform_data] raises, and where every
    date header parses the exception is the one of [.strip()] on that cell;
    no record with an empty category is produced.  On tables whose Categoria
    cells are all text, that exception cannot occur. *)
Theorem C10_missing_categoria (df : DataFrame) (row : Row) :
  _validate_input_data df = Ok true ->
  In row (rows df) ->
  row "Categoria"%string = CNaN ->
  (forall rs, _validate_input_data {| columns := columns df; rows := rs |} = Ok true) /\
  raises (transform_data df) /\
  (well_formed_headers df -> transform_data df = Raise AttributeError_strip) /\
  (forall df', text_categories df' -> transform_data df' <> Raise AttributeError_strip).
Proof.
  intros Hv Hin Hnan.
  destruct (validate_ok_date_columns df Hv) as [Hmiss Hdate].
  repeat split.
  - intros rs. exact Hv.
  - destruct (ok_or_raises (reshape df)) as [[obs Hobs]|Hr].
    + destruct (reshape_ok_shape df obs Hobs) as [_ Hnth].
      apply In_nth_error in Hin as [i Hi].
      destruct (date_columns df) as [|col cols] eqn:Ec; [congruence|].
      destruct (Hnth i 0 row col Hi eq_refl) as (o & _ & Ho).
      destruct (observation_fields _ _ _ Ho) as (m & y & name & c & _ & _ & Hc & _).
      congruence.
    + now apply transform_data_raises_of_reshape.
  - intros Hh. unfold transform_data. rewrite Hv. cbn [bind].
    assert (Hns : is_str (row "Categoria"%string) = false) by now rewrite Hnan.
    now rewrite (reshape_strip_error df row Hdate Hh Hin Hns).
  - intros df' Htext H. unfold transform_data in H.
    destruct (_validate_input_data df') as [b|e] eqn:Ev; cbn [bind] in H.
    + destruct (reshape df') as [obs|e] eqn:Er; cbn [bind] in H.
      * destruct obs; discriminate.
      * inversion H; subst e.
        apply reshape_strip_error_inv in Er as (r & Hr & Hc).
        specialize (Htext r Hr). congruence.
    + unfold _validate_input_data in Ev.
      destruct (missing_columns df'); [destruct (date_columns df')|];
        congruence.
Qed.

Lemma C10_missing_categoria_witness :
  (forall rs, _validate_input_data {| columns := columns gap_df; rows := rs |} = Ok true) /\
  raises (transform_data gap_df) /\
  (well_formed_headers gap_df -> transform_data gap_df = Raise AttributeError_strip) /\
  (forall df', text_categories df' -> transform_data df' <> Raise AttributeError_strip).
Proof.
  apply (C10_missing_categoria gap_df
           (row_of [("Tipo", CStr "Entrada"); ("Grupo", CStr "Vendas");
                    ("Jan/24", CStr "20")])).
  - reflexivity.
  - simpl. right. now left.
  - reflexivity.
Defined.

(** ** Validation *)

Lemma missing_columns_spec (df : DataFrame) (c : string) :
  In c (missing_columns df) <->
  In c required_columns /\ ~ In c (columns df).
Proof.
  unfold missing_columns. rewrite filter_In.
  split; intros [H1 H2]; split; auto.
  - intros Hin. apply negb_true_iff in H2.
    assert (existsb (String.eqb c) (columns df) = true).
    { apply existsb_exists. exists c. split; [exact Hin | apply String.eqb_refl]. }
    congruence.
  - apply negb_true_iff.
    destruct (existsb (String.eqb c) (columns df)) eqn:E; [|reflexivity].
    apply existsb_exists in E as (x & Hx & Heq).
    apply String.eqb_eq in Heq. subst x. contradiction.
Qed.

(** C7: a table that lacks one or more of Tipo, Grupo, Categoria fails
    validation with the error whose message lists the missing names, which
    are exactly the required names absent from the table; [transform_data]
    raises that same error, whatever the rows hold, and returns no record.
    The message is one of seven texts, by the names that are missing, listed
    in the order Tipo, Grupo, Categoria: a table that lacks only Categoria
    gets "Missing required columns: ['Categoria']". *)
Theorem C7_missing_columns (df : DataFrame) :
  (exists c, In c required_columns /\ ~ In c (columns df)) ->
  let e := ValueError ("Missing required columns: "
                       ++ PyStr.repr_names (missing_columns df)) in
  _validate_input_data df = Raise e /\
  transform_data df = Raise e /\
  (forall c, In c (missing_columns df) <->
             In c required_columns /\ ~ In c (columns df)) /\
  (missing_columns df = ["Categoria"%string] ->
   e = ValueError "Missing required columns: ['Categoria']") /\
  exists msg,
    _validate_input_data df = Raise (ValueError msg) /\
    transform_data df = Raise (ValueError msg) /\
    In (missing_columns df, msg)
     [(["Tipo"], "Missing required columns: ['Tipo']");
      (["Grupo"], "Missing required columns: ['Grupo']");
      (["Categoria"], "Missing required columns: ['Categoria']");
      (["Tipo"; "Grupo"], "Missing required columns: ['Tipo', 'Grupo']");
      (["Tipo"; "Categoria"], "Missing required columns: ['Tipo', 'Categoria']");
      (["Grupo"; "Categoria"], "Missing required columns: ['Grupo', 'Categoria']");
      (["Tipo"; "Grupo"; "Categoria"],
       "Missing required columns: ['Tipo', 'Grupo', 'Categoria']")]%string.
Proof.
  intros (c & Hreq & Hnot) e.
  assert (Hc : In c (missing_columns df)) by (apply missing_columns_spec; auto).
  assert (Hv : _validate_input_data df = Raise e).
  { unfold _validate_input_data, e.
    destruct (missing_columns df); [contradiction | reflexivity]. }
  assert (Ht : transform_data df = Raise e)
    by (unfold transform_data; now rewrite Hv).
  split; [exact Hv|].
  split; [exact Ht|].
  split; [intros c0; apply missing_columns_spec|].
  split; [intros H; unfold e; now rewrite H|].
  exists ("Missing required columns: "
          ++ PyStr.repr_names (missing_columns df))%string.
  split; [exact Hv|]. split; [exact Ht|].
  clear Hv Ht e. revert Hc. unfold missing_columns, required_columns.
  cbn [filter].
  destruct (negb (existsb (String.eqb "Tipo") (columns df))),
           (negb (existsb (String.eqb "Grupo") (columns df))),
           (negb (existsb (String.eqb "Categoria") (columns df)));
    intros Hc; try contradiction; cbv; auto 10.
Qed.

Lemma C7_missing_columns_witness :
  let df := {| columns := ["Tipo"; "Grupo"; "Jan/24"]%string; rows := [] |} in
  let e := ValueError ("Missing required columns: "
                       ++ PyStr.repr_names (missing_columns df)) in
  _validate_input_data df = Raise e /\
  transform_data df = Raise e /\
  (forall c, In c (missing_columns df) <->
             In c required_columns /\ ~ In c (columns df)) /\
  (missing_columns df = ["Categoria"%string] ->
   e = ValueError "Missing required columns: ['Categoria']") /\
  exists msg,
    _validate_input_data df = Raise (ValueError msg) /\
    transform_data df = Raise (ValueError msg) /\
    In (missing_columns df, msg)
     [(["Tipo"], "Missing required columns: ['Tipo']");
      (["Grupo"], "Missing required columns: ['Grupo']");
      (["Categoria"], "Missing required columns: ['Categoria']");
      (["Tipo"; "Grupo"], "Missing required columns: ['Tipo', 'Grupo']");
      (["Tipo"; "Categoria"], "Missing required columns: ['Tipo', 'Categoria']");
      (["Grupo"; "Categoria"], "Missing required columns: ['Grupo', 'Categoria']");
      (["Tipo"; "Grupo"; "Categoria"],
       "Missing required columns: ['Tipo', 'Grupo', 'Categoria']")]%string.
Proof.
  intros df.
  apply (C7_missing_columns df).
  exists "Categoria"%string. split.
  - simpl. auto.
  - simpl. intros [H|[H|[H|[]]]]; discriminate.
Defined.

Lemma contains_total_false : PyStr.contains "/" "Total" = false.
Proof. reflexivity. Qed.

(** C8: a table with the three identifying columns in which no column other
    than Total has a "/" in its name fails validation with the error "No
    date columns found ...", and so does [transform_data]; a column named
    Total is never among the date columns of any table. *)
Theorem C8_no_date_columns (df : DataFrame) :
  (forall c, In c required_columns -> In c (columns df)) ->
  (forall c, In c (columns df) -> c <> "Total"%string ->
             PyStr.contains "/" c = false) ->
  let e := ValueError "No date columns found in the format 'MMM/YY'" in
  _validate_input_data df = Raise e /\
  transform_data df = Raise e /\
  (forall df', ~ In "Total"%string (date_columns df')).
Proof.
  intros Hreq Hno e.
  assert (Hm : missing_columns df = []).
  { destruct (missing_columns df) as [|c l] eqn:E; [reflexivity|].
    assert (Hc : In c (missing_columns df)) by (rewrite E; now left).
    apply missing_columns_spec in Hc as [H1 H2]. elim H2. auto. }
  assert (Hd : date_columns df = []).
  { destruct (date_columns df) as [|c l] eqn:E; [reflexivity|].
    assert (Hc : In c (date_columns df)) by (rewrite E; now left).
    unfold date_columns in Hc. apply filter_In in Hc as [H1 H2].
    apply andb_true_iff in H2 as [H2 H3].
    apply negb_true_iff, String.eqb_neq in H3.
    rewrite (Hno c H1 H3) in H2. discriminate. }
  assert (Hv : _validate_input_data df = Raise e).
  { unfold _validate_input_data. now rewrite Hm, Hd. }
  repeat split.
  - exact Hv.
  - unfold transform_data. now rewrite Hv.
  - intros df' H. unfold date_columns in H. apply filter_In in H as [_ H].
    rewrite contains_total_false in H. discriminate.
Qed.

Lemma C8_no_date_columns_witness :
  let df := {| columns := ["Tipo"; "Grupo"; "Categoria"; "Total"]%string;
               rows := [] |} in
  let e := ValueError "No date columns found in the format 'MMM/YY'" in
  _validate_input_data df = Raise e /\
  transform_data df = Raise e /\
  (forall df', ~ In "Total"%string (date_columns df')).
Proof.
  intros df.
  apply (C8_no_date_columns df).
  - simpl. intuition.
  - simpl. intros c [<-|[<-|[<-|[<-|[]]]]] H; reflexivity.
Defined.

(** ** The sort *)

Lemma number_compare_antisym (a b : number) :
  number_compare a b = CompOpp (number_compare b a).
Proof.
  destruct a as [[|]|m1 e1], b as [[|]|m2 e2]; try reflexivity.
  cbn [number_compare]. rewrite (Z.min_comm e2 e1). apply Z.compare_antisym.
Qed.

Lemma number_compare_eq (a b : number) :
  number_compare a b = Eq -> number_eqv a b.
Proof.
  destruct a as [[|]|m1 e1], b as [[|]|m2 e2]; cbn [number_compare number_eqv];
    intros H; try discriminate; auto.
  now apply Z.compare_eq_iff.
Qed.

Lemma number_compare_lt (a b : number) :
  number_compare a b = Lt -> number_lt a b.
Proof.
  destruct a as [[|]|m1 e1], b as [[|]|m2 e2]; cbn [number_compare number_lt];
    intros H; try discriminate; auto.
Qed.

Lemma number_compare_refl (a : number) : number_compare a a = Eq.
Proof.
  destruct a as [[|]|m e]; try reflexivity.
  cbn [number_compare]. apply Z.compare_refl.
Qed.

Lemma cell_compare_antisym (a b : cell) :
  cell_compare a b = CompOpp (cell_compare b a).
Proof.
  destruct a, b; cbn [cell_compare]; try reflexivity;
    auto using String.compare_antisym, number_compare_antisym.
Qed.

Lemma cell_compare_eq (a b : cell) : cell_compare a b = Eq -> cell_eqv a b.
Proof.
  destruct a, b; cbn [cell_compare cell_eqv]; intros H; try discriminate; auto.
  - now apply String.compare_eq_iff.
  - now apply number_compare_eq.
Qed.

Lemma cell_compare_lt (a b : cell) : cell_compare a b = Lt -> cell_lt a b.
Proof.
  destruct a, b; cbn [cell_compare cell_lt]; intros H; try discriminate; auto.
  now apply number_compare_lt.
Qed.

Lemma then_compare_antisym (c c' k k' : comparison) :
  c = CompOpp c' -> k = CompOpp k' ->
  then_compare c k = CompOpp (then_compare c' k').
Proof.
  intros -> ->. now destruct c'.
Qed.

Lemma key_compare_antisym (a b : Observation) :
  key_compare a b = CompOpp (key_compare b a).
Proof.
  unfold key_compare.
  repeat apply then_compare_antisym;
    auto using String.compare_antisym, cell_compare_antisym.
Qed.

Lemma key_leb_total (a b : Observation) :
  key_leb a b = false -> key_leb b a = true.
Proof.
  unfold key_leb. rewrite (key_compare_antisym b a).
  now destruct (key_compare a b).
Qed.

Lemma key_leb_le (a b : Observation) : key_leb a b = true -> key_le a b.
Proof.
  unfold key_leb, key_compare, key_le.
  destruct (String.compare (Data a) (Data b)) eqn:E1; simpl;
    [|now left|discriminate].
  apply String.compare_eq_iff in E1. intros H. right. split; [exact E1|].
  destruct (cell_compare (Tipo a) (Tipo b)) eqn:E2; simpl in H;
    [|left; now apply cell_compare_lt|discriminate].
  apply cell_compare_eq in E2. right. split; [exact E2|].
  destruct (cell_compare (Grupo a) (Grupo b)) eqn:E3; simpl in H;
    [|left; now apply cell_compare_lt|discriminate].
  apply cell_compare_eq in E3. right. split; [exact E3|].
  destruct (String.compare (Categoria a) (Categoria b)) eqn:E4;
    [|now left|discriminate].
  right. now apply String.compare_eq_iff.
Qed.

Lemma insert_sorted_hd (x a : Observation) (l : list Observation) :
  key_leb a x = true -> HdRel key_leb_rel a l ->
  HdRel key_leb_rel a (insert_sorted x l).
Proof.
  intros Hax Hl. destruct l as [|y l]; simpl.
  - now constructor.
  - destruct (key_leb x y); constructor; auto.
    now inversion Hl.
Qed.

Lemma insert_sorted_sorted (x : Observation) (l : list Observation) :
  Sorted key_leb_rel l -> Sorted key_leb_rel (insert_sorted x l).
Proof.
  induction 1 as [|y l Hs IH Hhd]; simpl.
  - repeat constructor.
  - destruct (key_leb x y) eqn:E.
    + constructor; [now constructor | now constructor].
    + constructor; [exact IH|].
      apply insert_sorted_hd; auto. now apply key_leb_total.
Qed.

Lemma stable_sort_sorted (l : list Observation) :
  Sorted key_leb_rel (stable_sort l).
Proof.
  induction l as [|x l IH]; simpl; [constructor|].
  now apply insert_sorted_sorted.
Qed.

Lemma insert_sorted_perm (x : Observation) (l : list Observation) :
  Permutation (x :: l) (insert_sorted x l).
Proof.
  induction l as [|y l IH]; simpl; [reflexivity|].
  destruct (key_leb x y); [reflexivity|].
  rewrite perm_swap. now constructor.
Qed.

Lemma stable_sort_perm (l : list Observation) :
  Permutation l (stable_sort l).
Proof.
  induction l as [|x l IH]; simpl; [constructor|].
  rewrite <- insert_sorted_perm. now constructor.
Qed.

Lemma sorted_adjacent (l : list Observation) (i : nat) (a b : Observation) :
  Sorted key_leb_rel l ->
  nth_error l i = Some a -> nth_error l (S i) = Some b ->
  key_leb a b = true.
Proof.
  intros Hs. revert i. induction Hs as [|x l Hs IH Hhd]; intros i Ha Hb.
  - destruct i; discriminate.
  - destruct i as [|i]; simpl in *.
    + inversion Ha; subst. destruct l as [|y l]; [discriminate|].
      simpl in Hb. inversion Hb; subst. now inversion Hhd.
    + eauto.
Qed.

Lemma transform_data_ok (df : DataFrame) (out : list Observation) :
  transform_data df = Ok out ->
  exists obs,
    _validate_input_data df = Ok true /\ reshape df = Ok obs /\
    obs <> [] /\ out = stable_sort obs.
Proof.
  unfold transform_data. intros H.
  apply bind_ok in H as (b & Hv & H).
  apply bind_ok in H as (obs & Hr & H).
  exists obs. destruct obs as [|o obs]; [discriminate|].
  inversion H. repeat split; auto; [|discriminate].
  unfold _validate_input_data in *.
  destruct (missing_columns df); [|discriminate].
  destruct (date_columns df); [discriminate|]. congruence.
Qed.

(** The run completes on a well-formed table that has a row, and it returns
    the records of the reshape, rearranged. *)
Lemma transform_data_total (df : DataFrame) :
  _validate_input_data df = Ok true ->
  well_formed_headers df -> text_categories df -> rows df <> [] ->
  exists obs out,
    reshape df = Ok obs /\ transform_data df = Ok out /\ Permutation obs out.
Proof.
  intros Hv Hh Hc Hrows.
  destruct (reshape_total df Hh Hc) as [obs Hobs].
  destruct (reshape_ok_shape df obs Hobs) as [Hlen _].
  destruct (validate_ok_date_columns df Hv) as [_ Hd].
  exists obs, (stable_sort obs). split; [exact Hobs|].
  split; [|apply stable_sort_perm].
  unfold transform_data. rewrite Hv, Hobs. cbn [bind].
  destruct obs as [|o obs]; [|reflexivity].
  destruct (rows df); [congruence|].
  destruct (date_columns df); [congruence|]. discriminate.
Qed.

(** C2: for every table that passes validation, the sequence that
    [transform_data] returns is in ascending lexicographic order of (Data,
    Tipo, Grupo, Categoria): each record is at or below its successor.  The
    dates and the categories are texts, in code-point order; a Tipo or Grupo
    cell is below another when it is the smaller number, the earlier text, a
    number against a text, or anything against a missing cell. *)
Theorem C2_sorted_output (df : DataFrame) (out : list Observation)
    (i : nat) (a b : Observation) :
  _validate_input_data df = Ok true ->
  transform_data df = Ok out ->
  nth_error out i = Some a ->
  nth_error out (S i) = Some b ->
  key_le a b.
Proof.
  intros _ Hout Ha Hb.
  apply transform_data_ok in Hout as (obs & _ & _ & _ & ->).
  apply key_leb_le.
  exact (sorted_adjacent _ i a b (stable_sort_sorted obs) Ha Hb).
Qed.

Lemma C2_sorted_output_witness :
  key_le (record "2024-01-01" 2024 1 "Janeiro" "Saída" "Custos" "Frete"
                 (PyFloat.of_Z 3))
         (record "2024-02-01" 2024 2 "Fevereiro" "Entrada" "Vendas" "Produtos"
                 (PyFloat.of_Z 20)).
Proof.
  apply (C2_sorted_output shuffled_df shuffled_out 1); reflexivity.
Defined.

(** ** The end-to-end scenario *)

(** C3, as amended: the scenario table gives two records, in this order:
    (2024-01-01, 2024, 1, Janeiro, Entrada, Vendas, "Produtos", 0.00), since
    "1.500,00" becomes "1.500.00", which is no number, and (2024-02-01, 2024,
    2, Fevereiro, Entrada, Vendas, "Produtos", 2000.00). *)
Theorem C3_end_to_end :
  transform_data scenario_df =
  Ok [record "2024-01-01" 2024 1 "Janeiro" "Entrada" "Vendas" "Produtos"
             PyFloat.zero;
      record "2024-02-01" 2024 2 "Fevereiro" "Entrada" "Vendas" "Produtos"
             (PyFloat.of_Z 2000)].
Proof.
  unfold transform_data.
  replace (_validate_input_data scenario_df) with (Ok (A := bool) true)
    by reflexivity.
  replace (reshape scenario_df) with
    (Ok [record "2024-01-01" 2024 1 "Janeiro" "Entrada" "Vendas" "Produtos"
                (valor (cell_value (CStr "1.500,00")));
         record "2024-02-01" 2024 2 "Fevereiro" "Entrada" "Vendas" "Produtos"
                (valor (cell_value (CStr "2000")))])
    by reflexivity.
  reflexivity.
Qed.

(** C3 as stated fails: the first record of the scenario does not carry the
    value 1500.00. *)
Lemma C3_counterexample :
  transform_data scenario_df <>
  Ok [record "2024-01-01" 2024 1 "Janeiro" "Entrada" "Vendas" "Produtos"
             (PyFloat.of_Z 1500);
      record "2024-02-01" 2024 2 "Fevereiro" "Entrada" "Vendas" "Produtos"
             (PyFloat.of_Z 2000)].
Proof.
  intros H. vm_compute in H. discriminate H.
Qed.

(** ** Date headers *)

Lemma isdigit_cases (d : ascii) :
  PyStr.isdigit d = true ->
  In d ["0"; "1"; "2"; "3"; "4"; "5"; "6"; "7"; "8"; "9"]%char.
Proof.
  destruct d as [[] [] [] [] [] [] [] []]; intros H;
    try (vm_compute in H; discriminate H); simpl; tauto.
Qed.

Lemma month_map_cases (mon : string) (m : Z) :
  dict_get String.eqb month_map mon = Some m ->
  In (mon, m) month_map.
Proof.
  unfold month_map. cbn [dict_get].
  repeat match goal with
         | |- context [String.eqb ?a mon] =>
             destruct (String.eqb_spec a mon) as [<-|_]
         end; intros H; inversion H; simpl; tauto.
Qed.

Lemma parse_known_header (mon : string) (m : Z) (d1 d2 : ascii) :
  dict_get String.eqb month_map mon = Some m ->
  PyStr.isdigit d1 = true -> PyStr.isdigit d2 = true ->
  _parse_date_column (mon ++ "/" ++ String d1 (String d2 EmptyString))%string =
  Ok (Some m, (2000 + (10 * PyStr.digit d1 + PyStr.digit d2))%Z) /\
  date_str (2000 + (10 * PyStr.digit d1 + PyStr.digit d2)) m =
  ("20" ++ String d1 (String d2 EmptyString) ++ "-" ++ two_digits m ++ "-01")%string.
Proof.
  intros Hm H1 H2.
  apply month_map_cases in Hm. apply isdigit_cases in H1, H2.
  simpl in Hm, H1, H2.
  repeat match goal with
         | H : _ \/ _ |- _ => destruct H as [H|H]
         | H : False |- _ => destruct H
         end;
    inversion Hm; subst; split; vm_compute; reflexivity.
Qed.

Lemma digit_range (d : ascii) :
  PyStr.isdigit d = true -> (0 <= PyStr.digit d <= 9)%Z.
Proof.
  intros H. apply isdigit_cases in H. simpl in H.
  repeat destruct H as [<-|H]; try (vm_compute; split; discriminate).
  contradiction.
Qed.

(** C6: on a header <Mon>/<YY>, with <Mon> in the month table and <YY> two
    digits, the parser returns the month of the table, between 1 and 12, and
    the year 2000 + YY; the record built for that column carries the date
    "20YY-MM-01" with the month zero-padded, the year, the month and the
    month name of the table.  "Mar/24" gives 2024-03-01, 3 and "Março". *)
Theorem C6_date_column (mon : string) (m : Z) (d1 d2 : ascii) :
  dict_get String.eqb month_map mon = Some m ->
  PyStr.isdigit d1 = true ->
  PyStr.isdigit d2 = true ->
  let yy := String d1 (String d2 EmptyString) in
  let year := (2000 + (10 * PyStr.digit d1 + PyStr.digit d2))%Z in
  let col := (mon ++ "/" ++ yy)%string in
  _parse_date_column col = Ok (Some m, year) /\
  (1 <= m <= 12)%Z /\ (2000 <= year <= 2099)%Z /\
  (forall row o,
     observation row col = Ok o ->
     Data o = ("20" ++ yy ++ "-" ++ two_digits m ++ "-01")%string /\
     Ano o = year /\ Mes o = m /\
     dict_get Z.eqb month_names m = Some (Mes_Nome o)) /\
  (forall row, is_str (row "Categoria"%string) = true ->
               exists o, observation row col = Ok o) /\
  (forall row o,
     observation row "Mar/24" = Ok o ->
     Data o = "2024-03-01"%string /\ Ano o = 2024%Z /\ Mes o = 3%Z /\
     Mes_Nome o = "Março"%string).
Proof.
  intros Hm H1 H2 yy year col.
  destruct (parse_known_header mon m d1 d2 Hm H1 H2) as [Hp Hd].
  fold yy year col in Hp, Hd.
  assert (R1 := digit_range d1 H1). assert (R2 := digit_range d2 H2).
  split; [exact Hp|].
  split; [now apply month_map_range in Hm|].
  split; [unfold year; lia|].
  split; [|split].
  - intros row o Ho.
    destruct (observation_fields _ _ _ Ho) as (m' & y' & name & c & Hp' & Hn & _ & ->).
    rewrite Hp in Hp'. inversion Hp'; subst m' y'. simpl.
    rewrite Hd. auto.
  - intros row Hc. now apply (observation_total row col m year).
  - intros row o Ho.
    destruct (observation_fields _ _ _ Ho) as (m' & y' & name & c & Hp' & Hn & _ & ->).
    vm_compute in Hp'. inversion Hp'; subst m' y'.
    vm_compute in Hn. inversion Hn; subst name. simpl. auto.
Qed.

Lemma C6_date_column_witness :
  let yy := String "2" (String "4" EmptyString) in
  let year := (2000 + (10 * PyStr.digit "2" + PyStr.digit "4"))%Z in
  let col := ("Mar" ++ "/" ++ yy)%string in
  _parse_date_column col = Ok (Some 3%Z, year) /\
  (1 <= 3 <= 12)%Z /\ (2000 <= year <= 2099)%Z /\
  (forall row o,
     observation row col = Ok o ->
     Data o = ("20" ++ yy ++ "-" ++ two_digits 3 ++ "-01")%string /\
     Ano o = year /\ Mes o = 3%Z /\
     dict_get Z.eqb month_names 3%Z = Some (Mes_Nome o)) /\
  (forall row, is_str (row "Categoria"%string) = true ->
               exists o, observation row col = Ok o) /\
  (forall row o,
     observation row "Mar/24" = Ok o ->
     Data o = "2024-03-01"%string /\ Ano o = 2024%Z /\ Mes o = 3%Z /\
     Mes_Nome o = "Março"%string).
Proof.
  apply (C6_date_column "Mar" 3 "2" "4"); reflexivity.
Defined.

Local Open Scope Z_scope.

(** ** Binary64 rounding *)

Section Digits.

Lemma digits2_pos_size (p : positive) : digits2_pos p = Pos.size p.
Proof. induction p; simpl; congruence. Qed.

Lemma Zdigits2_nonneg (m : Z) : 0 <= Zdigits2 m.
Proof. destruct m; simpl; lia. Qed.

Lemma Zdigits2_upper (m : Z) : 0 <= m -> m < 2 ^ Zdigits2 m.
Proof.
  destruct m as [|p|p]; intros H; [simpl; lia| |lia].
  unfold Zdigits2. rewrite digits2_pos_size.
  pose proof (Pos.size_gt p) as Hs.
  rewrite <- Pos2Z.inj_pow. lia.
Qed.

Lemma Zdigits2_lower (p : positive) : 2 ^ Zdigits2 (Zpos p) <= 2 * Zpos p.
Proof.
  unfold Zdigits2. rewrite digits2_pos_size.
  pose proof (Pos.size_le p) as Hs.
  rewrite <- Pos2Z.inj_pow. lia.
Qed.

Lemma Zdigits2_le_of_lt (m k : Z) :
  0 <= m -> 0 <= k -> m < 2 ^ k -> Zdigits2 m <= k.
Proof.
  intros Hm Hk Hlt.
  destruct m as [|p|p]; [simpl; lia| |lia].
  pose proof (Zdigits2_lower p) as Hl.
  destruct (Z_le_gt_dec (Zdigits2 (Zpos p)) k) as [|Hgt]; [assumption|].
  assert (2 ^ (k + 1) <= 2 ^ Zdigits2 (Zpos p))
    by (apply Z.pow_le_mono_r; lia).
  rewrite Z.pow_add_r in H by lia. lia.
Qed.

Lemma Zdigits2_mono (a b : Z) : 0 <= a <= b -> Zdigits2 a <= Zdigits2 b.
Proof.
  intros [Ha Hab].
  apply Zdigits2_le_of_lt; [lia | apply Zdigits2_nonneg|].
  pose proof (Zdigits2_upper b). lia.
Qed.


End Digits.

Section Shift.







End Shift.

Section Rounding.










End Rounding.

Local Open Scope nat_scope.

(** ** The value of a record *)





Lemma map_result_In {A B : Type} (f : A -> result B) (l : list A)
    (l' : list B) (y : B) :
  map_result f l = Ok l' -> In y l' -> exists x, In x l /\ f x = Ok y.
Proof.
  revert l'. induction l as [|x l IH]; simpl; intros l' H Hy.
  - inversion H; subst. contradiction.
  - apply bind_ok in H as (y0 & Hy0 & H).
    apply bind_ok in H as (ys & Hys & H).
    inversion H; subst. destruct Hy as [->|Hy]; [eauto|].
    destruct (IH ys Hys Hy) as (x' & Hx' & Hf). eauto.
Qed.

Lemma reshape_ok_elements (df : DataFrame) (obs : list Observation)
    (o : Observation) :
  reshape df = Ok obs -> In o obs ->
  exists row col,
    In row (rows df) /\ In col (date_columns df) /\ observation row col = Ok o.
Proof.
  rewrite reshape_spec. intros H Ho.
  apply bind_ok in H as (ls & Hls & H). inversion H; subst; clear H.
  apply in_concat in Ho as (l & Hl & Ho).
  destruct (map_result_In _ _ _ _ Hls Hl) as (row & Hrow & Hr).
  destruct (map_result_In _ _ _ _ Hr Ho) as (col & Hcol & Hc).
  eauto.
Qed.




(** ** The host models on sample inputs *)

Example strip_spaces :
  PyStr.strip ("  Produtos " ++ String (ascii_of_N 9) EmptyString) = "Produtos"%string /\
  PyStr.strip (" Jan" ++ String (ascii_of_N 194) (String (ascii_of_N 160) " "))
    = "Jan"%string /\
  PyStr.strip "a b" = "a b"%string.
Proof. repeat split. Qed.

Example split_header :
  PyStr.split "/" "Jan/24" = ["Jan"; "24"]%string /\
  PyStr.split "/" "a/b/c" = ["a"; "b"; "c"]%string /\
  PyStr.split "/" "/" = [""; ""]%string.
Proof. repeat split. Qed.

Example int_literals :
  PyStr.py_int " +2_4 " = Some 24%Z /\
  PyStr.py_int "-5" = Some (-5)%Z /\
  PyStr.py_int "007" = Some 7%Z /\
  PyStr.py_int "24.1" = None /\
  PyStr.py_int "2__4" = None /\
  PyStr.py_int "" = None /\
  PyStr.py_int (String (ascii_of_N 28) "24") = None /\
  PyStr.py_int ("24" ++ String (ascii_of_N 194) (String (ascii_of_N 160) " "))
    = Some 24%Z.
Proof. repeat split. Qed.

Example parse_headers :
  _parse_date_column " Dez / 7 " = Ok (Some 12%Z, 2007%Z) /\
  _parse_date_column "Jan/2024" = Ok (Some 1%Z, 4024%Z) /\
  _parse_date_column "jan/24" = Ok (None, 2024%Z) /\
  _parse_date_column "Jan/24.1" = Raise ValueError_int /\
  _parse_date_column "a/b/c" = Raise ValueError_unpack.
Proof. repeat split. Qed.

Example numbers_read :
  PyFloat.to_numeric "2000" = PyFloat.of_Z 2000 /\
  PyFloat.to_numeric "1500.00" = PyFloat.of_Z 1500 /\
  PyFloat.to_numeric " -1.5e3 " = PyFloat.of_Z (-1500) /\
  PyFloat.to_numeric "0.1" = S754_finite false 7205759403792794 (-56) /\
  PyFloat.to_numeric "1.7976931348623157e308" =
    S754_finite false 9007199254740991 971 /\
  PyFloat.to_numeric "5e-324" = S754_finite false 1 (-1074) /\
  PyFloat.to_numeric "-Infinity" = S754_infinity true /\
  PyFloat.to_numeric "1e400" = S754_infinity false /\
  PyFloat.to_numeric "-1e400" = S754_infinity true /\
  PyFloat.to_numeric "-0" = S754_zero false /\
  PyFloat.to_numeric "-0.0" = S754_zero true.
Proof. repeat split; vm_compute; reflexivity. Qed.

Example numbers_refused :
  forall s,
    In s ["1.500.00"; ""; "nan"; "abc"; "1e"; "."; "0x10"; "1_000";
          " inf"]%string ->
    PyFloat.to_numeric s = PyFloat.nan.
Proof.
  intros s H. simpl in H.
  repeat destruct H as [<-|H]; try (vm_compute; reflexivity). contradiction.
Qed.

Example rounding :
  PyFloat.round2 (PyFloat.to_numeric "1234.567") = PyFloat.to_numeric "1234.57" /\
  PyFloat.round2 (PyFloat.to_numeric "2.675") = PyFloat.to_numeric "2.67" /\
  PyFloat.round2 (PyFloat.to_numeric "0.125") = PyFloat.to_numeric "0.12" /\
  PyFloat.round2 (PyFloat.to_numeric "0.375") = PyFloat.to_numeric "0.38" /\
  PyFloat.round2 (PyFloat.to_numeric "-0.001") = S754_zero true /\
  PyFloat.round2 (PyFloat.to_numeric "1e300") = PyFloat.to_numeric "1e300" /\
  PyFloat.of_ratio false (10 ^ 302) 100 = PyFloat.to_numeric "1e300".
Proof. repeat split; vm_compute; reflexivity. Qed.

Example validation_messages :
  _validate_input_data {| columns := ["Grupo"; "Jan/24"]%string; rows := [] |} =
    Raise (ValueError "Missing required columns: ['Tipo', 'Categoria']") /\
  _validate_input_data
    {| columns := ["Tipo"; "Grupo"; "Categoria"; "Total"]%string; rows := [] |} =
    Raise (ValueError "No date columns found in the format 'MMM/YY'") /\
  _validate_input_data (Build_DataFrame (columns scenario_df) []) = Ok true /\
  transform_data (Build_DataFrame (columns scenario_df) []) =
    Raise (KeyError "Data").
Proof. repeat split. Qed.

Example shuffled_run :
  transform_data shuffled_df = Ok shuffled_out /\
  date_columns shuffled_df = ["Fev/24"; "Jan/24"]%string.
Proof. repeat split. Qed.

Example numbers_in_cells :
  transform_data numbered_df =
    Ok [{| Data := "2024-01-01"; Ano := 2024; Mes := 1; Mes_Nome := "Janeiro";
           Tipo := CStr "Entrada"; Grupo := CNum (NDyadic 9 0) "9";
           Categoria := "Frete"; Valor := PyFloat.of_Z 1 |};
        {| Data := "2024-01-01"; Ano := 2024; Mes := 1; Mes_Nome := "Janeiro";
           Tipo := CStr "Entrada"; Grupo := CNum (NDyadic 10 0) "10";
           Categoria := "Produtos";
           Valor := PyFloat.of_decimal false 25 (-1) |}] /\
  transform_data coded_df = Raise AttributeError_strip /\
  cell_compare (CNum (NDyadic 3 (-1)) "1.5") (CNum (NDyadic 1 1) "2") = Lt /\
  cell_compare (CNum (NDyadic 1 0) "1") (CNum (NDyadic 2 (-1)) "1.0") = Eq /\
  cell_compare (CNum (NInf false) "inf") (CStr "0") = Lt /\
  cell_compare (CStr "10") (CStr "9") = Lt /\
  nunique [CNum (NDyadic 1 0) "1"; CNaN; CNum (NDyadic 2 (-1)) "1.0";
           CStr "1"] = 2%nat.
Proof. repeat split. Qed.

(** * Further properties of the code *)

(** ** Validation and the date columns *)

(** X1: validation passes exactly when Tipo, Grupo and Categoria are among
    the column labels and some label contains a "/". *)
Theorem validate_ok_iff (df : DataFrame) :
  _validate_input_data df = Ok true <->
  (forall c, In c required_columns -> In c (columns df)) /\
  (exists col, In col (columns df) /\ PyStr.contains "/" col = true).
Proof.
  split.
  - intros Hv. destruct (validate_ok_date_columns df Hv) as [Hm Hd]. split.
    + intros c Hc.
      destruct (in_dec string_dec c (columns df)) as [|Hn]; [assumption|].
      assert (In c (missing_columns df)) by (apply missing_columns_spec; auto).
      rewrite Hm in H. contradiction.
    + destruct (date_columns df) as [|col l] eqn:E; [congruence|].
      assert (Hin : In col (date_columns df)) by (rewrite E; now left).
      unfold date_columns in Hin. apply filter_In in Hin as [H1 H2].
      apply andb_true_iff in H2 as [H2 _]. eauto.
  - intros [Hreq (col & Hcol & Hs)]. unfold _validate_input_data.
    destruct (missing_columns df) as [|c l] eqn:Em.
    + destruct (date_columns df) as [|c l] eqn:Ed; [|reflexivity].
      assert (Hin : In col (date_columns df)).
      { unfold date_columns. apply filter_In. split; [exact Hcol|].
        rewrite Hs. simpl. apply negb_true_iff, String.eqb_neq.
        intros ->. discriminate. }
      rewrite Ed in Hin. contradiction.
    + assert (Hin : In c (missing_columns df)) by (rewrite Em; now left).
      apply missing_columns_spec in Hin as [H1 H2]. elim H2. auto.
Qed.

(** X2: the date columns are the labels that contain a "/", in the order of
    the table; the test against 'Total' never leaves a label out, so a label
    such as "Total/24" is a date column. *)
Theorem date_columns_total_test_idle (df : DataFrame) :
  date_columns df = filter (PyStr.contains "/") (columns df).
Proof.
  unfold date_columns. apply filter_ext_in. intros col _.
  destruct (PyStr.contains "/" col) eqn:E; [|reflexivity].
  simpl. apply negb_true_iff, String.eqb_neq. intros ->. discriminate.
Qed.

(** ** The parser *)

Lemma split_length (sep : ascii) (s : string) :
  length (PyStr.split sep s) = S (count_char sep s).
Proof.
  induction s as [|c r IH]; [reflexivity|].
  simpl. destruct (Ascii.eqb c sep); simpl.
  - now rewrite IH.
  - destruct (PyStr.split sep r); simpl in *; congruence.
Qed.

(** X3: the parser raises the unpacking error exactly on the headers that,
    stripped, do not have one single "/". *)
Theorem parse_date_column_slashes (col : string) :
  _parse_date_column col = Raise ValueError_unpack <->
  count_char "/" (PyStr.strip col) <> 1.
Proof.
  unfold _parse_date_column.
  pose proof (split_length "/" (PyStr.strip col)) as Hl.
  destruct (PyStr.split "/" (PyStr.strip col)) as [|a [|b [|c l]]];
    simpl in Hl.
  - discriminate.
  - split; [intros _; lia | reflexivity].
  - destruct (PyStr.py_int b); split; try discriminate; intros H; lia.
  - split; [intros _; lia | reflexivity].
Qed.

(** X4: whenever the parser returns, the stripped header has one single "/",
    the month is None or between 1 and 12, it is None exactly when the month
    token is not in the table, and the year is 2000 plus the integer the
    second part reads as, with no bound on it. *)
Theorem parse_date_column_invariant (col : string) (month : option Z) (year : Z) :
  _parse_date_column col = Ok (month, year) ->
  count_char "/" (PyStr.strip col) = 1 /\
  (forall m, month = Some m -> (1 <= m <= 12)%Z) /\
  (month = None <-> unknown_month col) /\
  exists year_str,
    nth_error (PyStr.split "/" (PyStr.strip col)) 1 = Some year_str /\
    PyStr.py_int year_str = Some (year - 2000)%Z.
Proof.
  intros Hp.
  assert (Hc : count_char "/" (PyStr.strip col) = 1).
  { pose proof (split_length "/" (PyStr.strip col)) as Hl.
    unfold _parse_date_column in Hp.
    destruct (PyStr.split "/" (PyStr.strip col)) as [|a [|b [|c l]]];
      try discriminate.
    simpl in Hl. lia. }
  split; [exact Hc|].
  split; [intros m ->; now apply parse_date_column_month in Hp|].
  unfold _parse_date_column in Hp. unfold unknown_month, month_token.
  destruct (PyStr.split "/" (PyStr.strip col)) as [|a [|b [|c l]]];
    try discriminate.
  destruct (PyStr.py_int b) as [n|] eqn:En; [|discriminate].
  assert (Hm : dict_get String.eqb month_map (PyStr.strip a) = month)
    by congruence.
  assert (Hy : (2000 + n)%Z = year) by congruence.
  cbn [hd]. rewrite Hm. split; [tauto|].
  exists b. split; [reflexivity|]. rewrite En. f_equal. lia.
Qed.

Lemma parse_date_column_invariant_witness :
  count_char "/" (PyStr.strip " Dez / -7 ") = 1 /\
  (forall m, Some 12%Z = Some m -> (1 <= m <= 12)%Z) /\
  (Some 12%Z = None <-> unknown_month " Dez / -7 ") /\
  exists year_str,
    nth_error (PyStr.split "/" (PyStr.strip " Dez / -7 ")) 1 = Some year_str /\
    PyStr.py_int year_str = Some (1993 - 2000)%Z.
Proof.
  apply (parse_date_column_invariant " Dez / -7 " (Some 12%Z) 1993%Z).
  reflexivity.
Defined.

(** ** The exceptions of a run *)





(** X6: a table that passes validation and has no row gives no record, and
    [transform_data] raises the KeyError on 'Data' instead of returning an
    empty frame. *)
Theorem transform_data_header_only (df : DataFrame) :
  _validate_input_data df = Ok true ->
  rows df = [] ->
  reshape df = Ok [] /\ transform_data df = Raise (KeyError "Data").
Proof.
  intros Hv Hr. unfold transform_data, reshape. rewrite Hv, Hr. split; reflexivity.
Qed.

Lemma transform_data_header_only_witness :
  reshape (Build_DataFrame (columns scenario_df) []) = Ok [] /\
  transform_data (Build_DataFrame (columns scenario_df) []) =
  Raise (KeyError "Data").
Proof.
  apply (transform_data_header_only (Build_DataFrame (columns scenario_df) []));
    reflexivity.
Defined.

(** ** What the run returns *)

Lemma transform_data_perm (df : DataFrame) (out : list Observation) :
  transform_data df = Ok out ->
  exists obs, reshape df = Ok obs /\ Permutation obs out /\ obs <> [].
Proof.
  intros H. apply transform_data_ok in H as (obs & _ & Hr & Hne & ->).
  exists obs. split; [exact Hr|]. split; [apply stable_sort_perm | exact Hne].
Qed.

Lemma output_provenance (df : DataFrame) (out : list Observation)
    (o : Observation) :
  transform_data df = Ok out -> In o out ->
  exists row col,
    In row (rows df) /\ In col (date_columns df) /\ observation row col = Ok o.
Proof.
  intros H Ho. destruct (transform_data_perm df out H) as (obs & Hr & Hp & _).
  apply (Permutation_in o (Permutation_sym Hp)) in Ho.
  now apply (reshape_ok_elements df obs).
Qed.

Lemma output_length (df : DataFrame) (out : list Observation) :
  transform_data df = Ok out ->
  length out = length (rows df) * length (date_columns df) /\ out <> [].
Proof.
  intros H. destruct (transform_data_perm df out H) as (obs & Hr & Hp & Hne).
  destruct (reshape_ok_shape df obs Hr) as [Hlen _]. split.
  - rewrite <- Hlen. symmetry. now apply Permutation_length.
  - intros ->. apply Permutation_sym, Permutation_nil in Hp. congruence.
Qed.

(** X7: what [transform_data] returns is the list of records of the two
    loops, rearranged: no record is lost or added by the sort, there are
    (rows) x (date columns) of them, and the table has a row. *)
Theorem transform_data_keeps_records (df : DataFrame) (out : list Observation) :
  transform_data df = Ok out ->
  exists obs,
    reshape df = Ok obs /\ Permutation obs out /\
    length out = length (rows df) * length (date_columns df) /\
    rows df <> [].
Proof.
  intros H. destruct (transform_data_perm df out H) as (obs & Hr & Hp & Hne).
  destruct (reshape_ok_shape df obs Hr) as [Hlen _].
  exists obs. split; [exact Hr|]. split; [exact Hp|].
  split.
  - rewrite <- Hlen. symmetry. now apply Permutation_length.
  - intros Hrows. rewrite Hrows in Hlen. destruct obs; [congruence|discriminate].
Qed.

Lemma transform_data_keeps_records_witness :
  exists obs,
    reshape shuffled_df = Ok obs /\ Permutation obs shuffled_out /\
    length shuffled_out =
      length (rows shuffled_df) * length (date_columns shuffled_df) /\
    rows shuffled_df <> [].
Proof.
  apply (transform_data_keeps_records shuffled_df shuffled_out). reflexivity.
Defined.

(** X8: every record [transform_data] returns is consistent and comes from
    the table: its month is between 1 and 12, its date is built from its own
    year and month, its month name is the one of its month, and there are a
    row and a date column of the table whose header parses to that month and
    year, whose Tipo and Grupo cells it copies, whose Categoria text it
    carries stripped, and whose cell gives its value. *)
Theorem output_record_invariant (df : DataFrame) (out : list Observation)
    (o : Observation) :
  transform_data df = Ok out ->
  In o out ->
  (1 <= Mes o <= 12)%Z /\
  Data o = date_str (Ano o) (Mes o) /\
  dict_get Z.eqb month_names (Mes o) = Some (Mes_Nome o) /\
  exists row col categoria,
    In row (rows df) /\ In col (date_columns df) /\
    _parse_date_column col = Ok (Some (Mes o), Ano o) /\
    Tipo o = row "Tipo"%string /\ Grupo o = row "Grupo"%string /\
    row "Categoria"%string = CStr categoria /\
    Categoria o = PyStr.strip categoria /\
    Valor o = valor (cell_value (row col)).
Proof.
  intros H Ho.
  destruct (output_provenance df out o H Ho) as (row & col & Hrow & Hcol & Hrec).
  destruct (observation_fields _ _ _ Hrec) as (m & y & name & c & Hparse & Hn & Hc & ->).
  simpl. split; [now apply parse_date_column_month in Hparse|].
  split; [reflexivity|]. split; [exact Hn|].
  exists row, col, c. repeat split; auto.
Qed.

Lemma output_record_invariant_witness :
  let o := record "2024-02-01" 2024 2 "Fevereiro" "Saída" "Custos" "Frete"
                  (PyFloat.of_decimal false 75 (-1)) in
  (1 <= Mes o <= 12)%Z /\
  Data o = date_str (Ano o) (Mes o) /\
  dict_get Z.eqb month_names (Mes o) = Some (Mes_Nome o) /\
  exists row col categoria,
    In row (rows shuffled_df) /\ In col (date_columns shuffled_df) /\
    _parse_date_column col = Ok (Some (Mes o), Ano o) /\
    Tipo o = row "Tipo"%string /\ Grupo o = row "Grupo"%string /\
    row "Categoria"%string = CStr categoria /\
    Categoria o = PyStr.strip categoria /\
    Valor o = valor (cell_value (row col)).
Proof.
  intros o.
  apply (output_record_invariant shuffled_df shuffled_out o).
  - reflexivity.
  - simpl. tauto.
Defined.

(** ** Decimal commas and thousands separators *)

Lemma replace_after_swap (s : string) :
  PyStr.replace "," "." (PyStr.replace "." "," s) = PyStr.replace "," "." s.
Proof.
  induction s as [|c r IH]; [reflexivity|].
  cbn [PyStr.replace]. rewrite IH. f_equal.
  destruct (Ascii.eqb_spec c ".") as [->|H1]; [reflexivity|].
  now destruct (Ascii.eqb c ",").
Qed.

(** X9: a decimal comma and a decimal point are read alike: turning the
    points of a cell text into commas, or its commas into points, does not
    change the number read from it. *)
Theorem comma_reads_as_point (s : string) :
  cell_value (CStr (PyStr.replace "." "," s)) = cell_value (CStr s) /\
  cell_value (CStr (PyStr.replace "," "." s)) = cell_value (CStr s).
Proof.
  unfold cell_value. cbn [py_str]. split.
  - now rewrite replace_after_swap.
  - f_equal. induction s as [|c r IH]; [reflexivity|].
    cbn [PyStr.replace]. rewrite IH. f_equal.
    destruct (Ascii.eqb c ",") eqn:E; [reflexivity | now rewrite E].
Qed.

Section Dots.

Let dots (s : string) : nat := count_char "." s.

Lemma not_dot_of (P : ascii -> bool) :
  P "."%char = false -> forall c, P c = true -> Ascii.eqb c "." = false.
Proof.
  intros HP c Hc. destruct (Ascii.eqb_spec c "."%char) as [->|]; congruence.
Qed.

Lemma skip_spaces_dots (s : string) : dots (PyFloat.skip_spaces s) = dots s.
Proof.
  induction s as [|c r IH]; [reflexivity|].
  cbn [PyFloat.skip_spaces]. destruct (PyFloat.isspace c) eqn:E; [|reflexivity].
  rewrite IH. unfold dots. cbn [count_char].
  now rewrite (not_dot_of PyFloat.isspace eq_refl c E).
Qed.

Lemma take_sign_dots (s : string) : dots (snd (PyFloat.take_sign s)) = dots s.
Proof.
  destruct s as [|c r]; [reflexivity|]. unfold PyFloat.take_sign.
  destruct (PyStr.byte_is 45 c) eqn:E1; cbn [snd].
  - unfold dots. cbn [count_char].
    now rewrite (not_dot_of (PyStr.byte_is 45) eq_refl c E1).
  - destruct (PyStr.byte_is 43 c) eqn:E2; cbn [snd]; [|reflexivity].
    unfold dots. cbn [count_char].
    now rewrite (not_dot_of (PyStr.byte_is 43) eq_refl c E2).
Qed.

Lemma take_digits_dots (s : string) (acc : N) (n : nat) :
  dots (snd (PyFloat.take_digits s acc n)) = dots s.
Proof.
  revert acc n. induction s as [|c r IH]; intros acc n; [reflexivity|].
  cbn [PyFloat.take_digits]. destruct (PyStr.isdigit c) eqn:E; [|reflexivity].
  rewrite IH. unfold dots. cbn [count_char].
  now rewrite (not_dot_of PyStr.isdigit eq_refl c E).
Qed.

Lemma scan_decimal_dots (s : string) (x : bool * N * Z) :
  PyFloat.scan_decimal s = Some x -> dots s <= 1.
Proof.
  unfold PyFloat.scan_decimal.
  pose proof (skip_spaces_dots s) as H0.
  pose proof (take_sign_dots (PyFloat.skip_spaces s)) as H1.
  destruct (PyFloat.take_sign (PyFloat.skip_spaces s)) as [neg s1].
  cbn [snd] in H1.
  pose proof (take_digits_dots s1 0%N 0) as H2.
  destruct (PyFloat.take_digits s1 0%N 0) as [[ip ni] s2]. cbn [snd] in H2.
  assert (H3 : forall m nf s3,
             match s2 with
             | String c r =>
                 if PyStr.byte_is 46 c then PyFloat.take_digits r ip 0
                 else (ip, 0, s2)
             | EmptyString => (ip, 0, s2)
             end = (m, nf, s3) -> dots s2 <= S (dots s3)).
  { intros m nf s3. destruct s2 as [|c r].
    - intros H; inversion H; subst. lia.
    - destruct (PyStr.byte_is 46 c).
      + intros H. pose proof (take_digits_dots r ip 0) as H4.
        rewrite H in H4. cbn [snd] in H4. unfold dots in *. cbn [count_char].
        destruct (Ascii.eqb c "."); lia.
      + intros H; inversion H; subst. lia. }
  destruct (match s2 with String c r => _ | EmptyString => _ end)
    as [[m nf] s3] eqn:E3.
  specialize (H3 m nf s3 eq_refl).
  destruct (ni + nf); [discriminate|].
  assert (H4 : forall e s4,
             match s3 with
             | String c r =>
                 if PyStr.byte_is 101 c || PyStr.byte_is 69 c
                 then
                   let '(eneg, r1) := PyFloat.take_sign r in
                   let '(ev, ne, r2) := PyFloat.take_digits r1 0%N 0 in
                   match ne with
                   | O => None
                   | S _ => Some (if eneg then (- Z.of_N ev)%Z else Z.of_N ev, r2)
                   end
                 else Some (0%Z, s3)
             | EmptyString => Some (0%Z, s3)
             end = Some (e, s4) -> dots s3 = dots s4).
  { intros e s4. destruct s3 as [|c r].
    - intros H; inversion H; subst. reflexivity.
    - destruct (PyStr.byte_is 101 c || PyStr.byte_is 69 c) eqn:Ec.
      + pose proof (take_sign_dots r) as H5.
        destruct (PyFloat.take_sign r) as [eneg r1]. cbn [snd] in H5.
        pose proof (take_digits_dots r1 0%N 0) as H6.
        destruct (PyFloat.take_digits r1 0%N 0) as [[ev ne] r2].
        cbn [snd] in H6. destruct ne; [discriminate|].
        intros H; inversion H; subst.
        unfold dots in *. cbn [count_char].
        rewrite (not_dot_of (fun c => PyStr.byte_is 101 c || PyStr.byte_is 69 c)
                   eq_refl c Ec). simpl. lia.
      + intros H; inversion H; subst. reflexivity. }
  destruct (match s3 with String c r => _ | EmptyString => _ end)
    as [[e s4]|] eqn:E4; [|discriminate].
  specialize (H4 e s4 eq_refl).
  pose proof (skip_spaces_dots s4) as H5.
  destruct (PyFloat.skip_spaces s4); [|discriminate].
  intros _. unfold dots in *. simpl in H5. lia.
Qed.

Lemma lowercase_dots (s : string) : dots (PyFloat.lowercase s) = dots s.
Proof.
  induction s as [|c r IH]; [reflexivity|].
  unfold dots in *. cbn [PyFloat.lowercase count_char]. rewrite IH. f_equal.
  destruct c as [[] [] [] [] [] [] [] []]; reflexivity.
Qed.

Lemma scan_infinity_dots (s : string) :
  PyFloat.scan_infinity s <> None -> dots s = 0.
Proof.
  unfold PyFloat.scan_infinity. rewrite <- (lowercase_dots s).
  set (t := PyFloat.lowercase s). intros H.
  assert (In t ["inf"; "+inf"; "infinity"; "+infinity"; "-inf"; "-infinity"]%string)
    as Hin.
  { destruct (existsb (String.eqb t) ["inf"; "+inf"; "infinity"; "+infinity"]%string)
      eqn:E1.
    - apply existsb_exists in E1 as (x & Hx & Heq).
      apply String.eqb_eq in Heq. subst x. simpl in Hx. simpl. tauto.
    - destruct (existsb (String.eqb t) ["-inf"; "-infinity"]%string) eqn:E2;
        [|congruence].
      apply existsb_exists in E2 as (x & Hx & Heq).
      apply String.eqb_eq in Heq. subst x. simpl in Hx. simpl. tauto. }
  simpl in Hin.
  repeat destruct Hin as [<-|Hin]; try reflexivity. contradiction.
Qed.

Lemma to_numeric_two_dots (s : string) :
  2 <= dots s -> PyFloat.to_numeric s = PyFloat.nan.
Proof.
  intros H. unfold PyFloat.to_numeric.
  destruct (PyFloat.scan_decimal s) as [x|] eqn:E.
  - apply scan_decimal_dots in E. lia.
  - destruct (PyFloat.scan_infinity s) eqn:Ei; [|reflexivity].
    assert (dots s = 0) by (apply scan_infinity_dots; congruence). lia.
Qed.

Lemma replace_comma_dots (s : string) :
  dots (PyStr.replace "," "." s) = count_char "." s + count_char "," s.
Proof.
  induction s as [|c r IH]; [reflexivity|].
  unfold dots in *. cbn [PyStr.replace count_char]. rewrite IH.
  destruct c as [[] [] [] [] [] [] [] []]; simpl; lia.
Qed.

End Dots.

(** X10: a cell whose text has two or more separators, points and commas
    counted together, is no number, and its record carries the value 0.00;
    every amount written with a thousands separator and a decimal mark is
    such a cell. *)
Theorem two_separators_zero_fill (row : Row) (col : string) (o : Observation) :
  observation row col = Ok o ->
  2 <= count_char "." (py_str (row col)) + count_char "," (py_str (row col)) ->
  Valor o = PyFloat.zero.
Proof.
  intros Ho H.
  destruct (observation_fields _ _ _ Ho) as (m & y & name & c & _ & _ & _ & ->).
  simpl. apply valor_of_nan. unfold cell_value.
  rewrite to_numeric_two_dots; [reflexivity|].
  now rewrite replace_comma_dots.
Qed.

Lemma two_separators_zero_fill_witness :
  Valor (record "2024-01-01" 2024 1 "Janeiro" "Entrada" "Vendas" "Produtos"
                PyFloat.zero) = PyFloat.zero.
Proof.
  apply (two_separators_zero_fill scenario_row "Jan/24").
  - reflexivity.
  - vm_compute. apply le_n.
Defined.

(** ** The order of texts *)

Lemma ascii_compare_trans (a b c : ascii) :
  Ascii.compare a b = Lt -> Ascii.compare b c = Lt -> Ascii.compare a c = Lt.
Proof.
  unfold Ascii.compare. rewrite !N.compare_lt_iff. lia.
Qed.

Lemma string_compare_lt_trans (a b c : string) :
  String.compare a b = Lt -> String.compare b c = Lt -> String.compare a c = Lt.
Proof.
  revert b c. induction a as [|x a IH]; intros [|y b] [|z c]; simpl;
    try discriminate; auto.
  destruct (Ascii.compare x y) eqn:E1; try discriminate;
    destruct (Ascii.compare y z) eqn:E2; try discriminate; intros H1 H2.
  - apply Ascii.compare_eq_iff in E1, E2. subst.
    assert (Ascii.compare z z = Eq) as ->
        by (unfold Ascii.compare; apply N.compare_refl).
    eauto.
  - apply Ascii.compare_eq_iff in E1. subst. now rewrite E2.
  - apply Ascii.compare_eq_iff in E2. subst. now rewrite E1.
  - now rewrite (ascii_compare_trans x y z E1 E2).
Qed.

Lemma string_compare_refl (a : string) : String.compare a a = Eq.
Proof.
  induction a as [|x a IH]; [reflexivity|]. simpl.
  assert (Ascii.compare x x = Eq) as ->
      by (unfold Ascii.compare; apply N.compare_refl).
  exact IH.
Qed.

Lemma string_leb_cases (a b : string) :
  String.leb a b = true <-> String.compare a b = Lt \/ a = b.
Proof.
  unfold String.leb. split.
  - destruct (String.compare a b) eqn:E; try discriminate; auto.
    right. now apply String.compare_eq_iff.
  - intros [->| ->]; [reflexivity|]. now rewrite string_compare_refl.
Qed.

Lemma string_leb_trans (a b c : string) :
  String.leb a b = true -> String.leb b c = true -> String.leb a c = true.
Proof.
  rewrite !string_leb_cases. intros [H1| ->] [H2| ->]; auto.
  left. eapply string_compare_lt_trans; eauto.
Qed.

Lemma string_ltb_leb (a b : string) :
  String.ltb a b = negb (String.leb b a).
Proof.
  unfold String.ltb, String.leb. rewrite (String.compare_antisym b a).
  now destruct (String.compare a b).
Qed.

(** ** The summary *)

Lemma series_min_spec (x : string) (l : list string) :
  In (series_min x l) (x :: l) /\
  forall y, In y (x :: l) -> String.leb (series_min x l) y = true.
Proof.
  unfold series_min. revert x. induction l as [|z l IH]; intros x; simpl.
  - split; [now left|]. intros y [<-|[]]. apply string_leb_cases. now right.
  - destruct (IH (if String.ltb z x then z else x)) as [Hin Hle]. split.
    + destruct Hin as [Hin|Hin]; [|now right; right].
      rewrite <- Hin. destruct (String.ltb z x); auto.
    + intros y Hy.
      assert (Hm : String.leb (if String.ltb z x then z else x) x = true /\
                   String.leb (if String.ltb z x then z else x) z = true).
      { rewrite string_ltb_leb.
        destruct (String.leb x z) eqn:E; simpl.
        - split; [apply string_leb_cases; now right | exact E].
        - split; [|apply string_leb_cases; now right].
          destruct (String.leb_total x z) as [H|H]; congruence. }
      destruct Hm as [Hx Hz].
      destruct Hy as [<-|[<-|Hy]].
      * eapply string_leb_trans; [apply Hle; now left | exact Hx].
      * eapply string_leb_trans; [apply Hle; now left | exact Hz].
      * apply Hle. now right.
Qed.

Lemma series_max_spec (x : string) (l : list string) :
  In (series_max x l) (x :: l) /\
  forall y, In y (x :: l) -> String.leb y (series_max x l) = true.
Proof.
  unfold series_max. revert x. induction l as [|z l IH]; intros x; simpl.
  - split; [now left|]. intros y [<-|[]]. apply string_leb_cases. now right.
  - destruct (IH (if String.ltb x z then z else x)) as [Hin Hle]. split.
    + destruct Hin as [Hin|Hin]; [|now right; right].
      rewrite <- Hin. destruct (String.ltb x z); auto.
    + intros y Hy.
      assert (Hm : String.leb x (if String.ltb x z then z else x) = true /\
                   String.leb z (if String.ltb x z then z else x) = true).
      { rewrite string_ltb_leb.
        destruct (String.leb z x) eqn:E; simpl.
        - split; [apply string_leb_cases; now right | exact E].
        - split; [|apply string_leb_cases; now right].
          destruct (String.leb_total x z) as [H|H]; congruence. }
      destruct Hm as [Hx Hz].
      destruct Hy as [<-|[<-|Hy]].
      * eapply string_leb_trans; [exact Hx | apply Hle; now left].
      * eapply string_leb_trans; [exact Hz | apply Hle; now left].
      * apply Hle. now right.
Qed.

Section Summary.

Variable series_sum : list spec_float -> spec_float.

(** X11: on a frame with a record, the summary's date range is taken from
    the frame: start and end are dates of records of the frame, every date of
    the frame lies between them in the order of texts, and the number of
    entries is the number of records, which is not zero. *)
Theorem summary_date_range (df : list Observation) (s : Summary) :
  generate_summary_stats series_sum df = Ok s ->
  (exists a b, In a df /\ In b df /\
               date_range_start s = Data a /\ date_range_end s = Data b) /\
  (forall o, In o df ->
     String.leb (date_range_start s) (Data o) = true /\
     String.leb (Data o) (date_range_end s) = true) /\
  total_entries s = length df /\ 0 < total_entries s.
Proof.
  destruct df as [|o0 df]; [discriminate|].
  intros H. inversion H; subst s; clear H. cbn [date_range_start date_range_end total_entries].
  destruct (series_min_spec (Data o0) (map Data df)) as [Hmin Hle].
  destruct (series_max_spec (Data o0) (map Data df)) as [Hmax Hge].
  change (Data o0 :: map Data df) with (map Data (o0 :: df)) in *.
  apply in_map_iff in Hmin as (a & Ha & Hina).
  apply in_map_iff in Hmax as (b & Hb & Hinb).
  split; [exists a, b; auto|].
  split; [|split; [reflexivity | simpl; lia]].
  intros o Ho. split; [apply Hle | apply Hge]; now apply in_map.
Qed.

End Summary.

Lemma summary_date_range_witness :
  (exists a b, In a shuffled_out /\ In b shuffled_out /\
               date_range_start shuffled_summary = Data a /\
               date_range_end shuffled_summary = Data b) /\
  (forall o, In o shuffled_out ->
     String.leb (date_range_start shuffled_summary) (Data o) = true /\
     String.leb (Data o) (date_range_end shuffled_summary) = true) /\
  total_entries shuffled_summary = length shuffled_out /\
  0 < total_entries shuffled_summary.
Proof.
  apply (summary_date_range sum_left shuffled_out shuffled_summary).
  reflexivity.
Defined.

Lemma key_leb_data (a b : Observation) : key_leb a b = true -> data_leb a b.
Proof.
  unfold key_leb, key_compare, data_leb, String.leb.
  destruct (String.compare (Data a) (Data b)); simpl; auto.
Qed.

Lemma stable_sort_by_data (l : list Observation) :
  StronglySorted data_leb (stable_sort l).
Proof.
  apply Sorted_StronglySorted.
  - intros a b c. apply string_leb_trans.
  - pose proof (stable_sort_sorted l) as H.
    induction H as [|x l' Hs IH Hhd]; constructor; auto.
    destruct Hhd; constructor. now apply key_leb_data.
Qed.

Lemma series_min_sorted (o : Observation) (l : list Observation) :
  Forall (data_leb o) l -> series_min (Data o) (map Data l) = Data o.
Proof.
  unfold series_min. induction l as [|x l IH]; intros H; [reflexivity|].
  inversion H as [|? ? Hx Hl]; subst. simpl.
  rewrite string_ltb_leb. unfold data_leb in Hx. rewrite Hx. simpl. auto.
Qed.

Lemma last_default {X : Type} (l : list X) (x d d' : X) :
  last (x :: l) d = last (x :: l) d'.
Proof.
  revert x. induction l as [|y l IH]; intros x; [reflexivity|].
  change (last (y :: l) d = last (y :: l) d'). apply IH.
Qed.

Lemma series_max_sorted (o : Observation) (l : list Observation) :
  StronglySorted data_leb (o :: l) ->
  series_max (Data o) (map Data l) = Data (last l o).
Proof.
  unfold series_max. revert o. induction l as [|x l IH]; intros o H;
    [reflexivity|].
  inversion H as [|? ? Hs Hf]; subst. inversion Hf as [|? ? Hx Hl]; subst.
  cbn [map fold_left].
  assert ((if String.ltb (Data o) (Data x) then Data x else Data o) = Data x)
    as ->.
  { unfold String.ltb. apply string_leb_cases in Hx as [Hx|Hx].
    - now rewrite Hx.
    - rewrite Hx, string_compare_refl. reflexivity. }
  rewrite (IH x Hs). f_equal.
  destruct l as [|y l]; [reflexivity|].
  change (last (y :: l) x = last (y :: l) o). apply last_default.
Qed.

Lemma cell_compare_refl (c : cell) : cell_compare c c = Eq.
Proof.
  destruct c; cbn [cell_compare];
    [apply string_compare_refl | reflexivity | apply number_compare_refl].
Qed.

Lemma distinct_incl (l : list cell) (x : cell) :
  In x (distinct l) -> In x l.
Proof.
  induction l as [|y l IH]; simpl; [auto|].
  destruct (existsb (cell_eqb y) l); simpl; intuition.
Qed.

Lemma distinct_NoDup (l : list cell) : NoDup (distinct l).
Proof.
  induction l as [|y l IH]; simpl; [constructor|].
  destruct (existsb (cell_eqb y) l) eqn:E; [exact IH|].
  constructor; [|exact IH]. intros Hin. apply distinct_incl in Hin.
  assert (existsb (cell_eqb y) l = true); [|congruence].
  apply existsb_exists. exists y. split; [exact Hin|].
  unfold cell_eqb. now rewrite cell_compare_refl.
Qed.

Lemma distinct_nonempty (l : list cell) : l <> [] -> 0 < length (distinct l).
Proof.
  induction l as [|y l IH]; [congruence|]. intros _. simpl.
  destruct (existsb (cell_eqb y) l) eqn:E; [|simpl; lia].
  apply IH. intros ->. discriminate.
Qed.

Lemma nunique_bound (l l' : list cell) :
  incl l l' -> nunique l <= length l'.
Proof.
  intros H. unfold nunique.
  apply NoDup_incl_length; [apply distinct_NoDup|].
  intros c Hc. apply distinct_incl in Hc.
  unfold dropna in Hc. apply filter_In in Hc as [Hc _]. now apply H.
Qed.

Section SummaryOfRun.

Variable series_sum : list spec_float -> spec_float.

(** X12: the summary of a run.  On the frame [transform_data] returns, the
    summary is always produced; its start date is the date of the first
    record and its end date the date of the last one, its number of entries
    is (rows) x (date columns), and it counts at most as many groups and as
    many categories as the table has rows, and one category at least. *)
Theorem summary_of_run (df : DataFrame) (out : list Observation) :
  transform_data df = Ok out ->
  exists s first,
    generate_summary_stats series_sum out = Ok s /\
    hd_error out = Some first /\
    date_range_start s = Data first /\
    date_range_end s = Data (last out first) /\
    total_entries s = length (rows df) * length (date_columns df) /\
    unique_groups s <= length (rows df) /\
    1 <= unique_categories s <= length (rows df).
Proof.
  intros H.
  destruct (output_length df out H) as [Hlen _].
  assert (Hprov : forall o, In o out ->
            exists row c, In row (rows df) /\ Grupo o = row "Grupo"%string /\
                          row "Categoria"%string = CStr c /\
                          Categoria o = PyStr.strip c).
  { intros o Ho.
    destruct (output_provenance df out o H Ho) as (row & col & Hrow & _ & Hrec).
    destruct (observation_fields _ _ _ Hrec) as (m & y & name & c & _ & _ & Hc & ->).
    exists row, c. auto. }
  apply transform_data_ok in H as (obs' & _ & _ & Hne & Hout).
  pose proof (stable_sort_by_data obs') as Hsorted. rewrite <- Hout in Hsorted.
  destruct out as [|first out'].
  { destruct obs'; [congruence|].
    pose proof (Permutation_length (stable_sort_perm (o :: obs'))) as Hl.
    rewrite <- Hout in Hl. discriminate. }
  eexists. exists first. split; [reflexivity|].
  cbn [date_range_start date_range_end total_entries unique_groups
       unique_categories hd_error].
  split; [reflexivity|].
  inversion Hsorted as [|? ? Hs Hf]; subst.
  split; [now apply series_min_sorted|].
  split.
  { rewrite (series_max_sorted first out' Hsorted). f_equal.
    destruct out'; reflexivity. }
  split; [exact Hlen|].
  split; [|split].
  - rewrite <- (length_map (fun row : Row => row "Grupo"%string) (rows df)).
    apply nunique_bound. intros c Hc.
    apply in_map_iff in Hc as (o & <- & Ho).
    destruct (Hprov o Ho) as (row & c & Hrow & Hg & _).
    rewrite Hg. apply in_map_iff. exists row. split; [reflexivity | exact Hrow].
  - unfold nunique. apply distinct_nonempty.
    cbn [map dropna filter]. discriminate.
  - rewrite <- (length_map
                  (fun row : Row => CStr (PyStr.strip (py_str (row "Categoria"%string))))
                  (rows df)).
    apply nunique_bound. intros c Hc.
    apply in_map_iff in Hc as (o & <- & Ho).
    destruct (Hprov o Ho) as (row & c & Hrow & _ & Hc & Hst).
    apply in_map_iff. exists row. split; [|exact Hrow].
    now rewrite Hc, Hst.
Qed.

End SummaryOfRun.

Lemma summary_of_run_witness :
  exists s first,
    generate_summary_stats sum_left shuffled_out = Ok s /\
    hd_error shuffled_out = Some first /\
    date_range_start s = Data first /\
    date_range_end s = Data (last shuffled_out first) /\
    total_entries s = length (rows shuffled_df) * length (date_columns shuffled_df) /\
    unique_groups s <= length (rows shuffled_df) /\
    1 <= unique_categories s <= length (rows shuffled_df).
Proof.
  apply (summary_of_run sum_left shuffled_df shuffled_out). reflexivity.
Defined.

Lemma cell_is_spec (label : string) (c : cell) :
  cell_is label c = true <-> c = CStr label.
Proof.
  destruct c as [t| |v t]; cbn [cell_is];
    [|split; discriminate|split; discriminate].
  rewrite String.eqb_eq. split; congruence.
Qed.

Lemma tipo_split_length (df : list Observation) :
  length (filter (fun o => cell_is "Entrada" (Tipo o)) df)
  + length (filter (fun o => cell_is "Saída" (Tipo o)) df)
  + length (filter (fun o => negb (cell_is "Entrada" (Tipo o))
                             && negb (cell_is "Saída" (Tipo o))) df)
  = length df.
Proof.
  induction df as [|o df IH]; [reflexivity|]. cbn [filter].
  destruct (cell_is "Entrada" (Tipo o)) eqn:E1.
  - apply cell_is_spec in E1. rewrite E1. cbn [cell_is].
    replace ("Entrada" =? "Saída")%string with false by reflexivity.
    cbn [negb andb length]. lia.
  - destruct (cell_is "Saída" (Tipo o)); cbn [negb andb length]; lia.
Qed.

Section Totals.

Variable series_sum : list spec_float -> spec_float.

(** X13: the two totals of the summary are taken over disjoint records.
    The income is the sum over the records whose Tipo is the text 'Entrada'
    and the expenses the sum over those whose Tipo is 'Saída', each in the
    order of the frame; a record whose Tipo is anything else (another text,
    a missing cell, a number) enters neither total, and the three groups
    together are the entries the summary counts. *)
Theorem income_and_expenses_split (df : list Observation) (s : Summary) :
  generate_summary_stats series_sum df = Ok s ->
  exists income expenses others,
    total_income s = series_sum (map Valor income) /\
    total_expenses s = series_sum (map Valor expenses) /\
    income = filter (fun o => cell_is "Entrada" (Tipo o)) df /\
    expenses = filter (fun o => cell_is "Saída" (Tipo o)) df /\
    (forall o, In o income <-> In o df /\ Tipo o = CStr "Entrada") /\
    (forall o, In o expenses <-> In o df /\ Tipo o = CStr "Saída") /\
    (forall o, In o others <->
               In o df /\ Tipo o <> CStr "Entrada" /\ Tipo o <> CStr "Saída") /\
    total_entries s = length income + length expenses + length others.
Proof.
  intros H.
  assert (Hs : total_income s = series_sum (valores_of "Entrada" df) /\
               total_expenses s = series_sum (valores_of "Saída" df) /\
               total_entries s = length df).
  { destruct df as [|o df']; [discriminate|].
    cbn [generate_summary_stats] in H.
    assert (Hs := f_equal (fun r => match r with Ok x => x | Raise _ => s end) H).
    cbv beta iota in Hs. rewrite <- Hs. repeat split. }
  destruct Hs as (Hi & He & Hn).
  exists (filter (fun o => cell_is "Entrada" (Tipo o)) df),
         (filter (fun o => cell_is "Saída" (Tipo o)) df),
         (filter (fun o => negb (cell_is "Entrada" (Tipo o))
                           && negb (cell_is "Saída" (Tipo o))) df).
  split; [exact Hi|]. split; [exact He|].
  split; [reflexivity|]. split; [reflexivity|].
  split; [|split; [|split]].
  - intros o. rewrite filter_In, cell_is_spec. tauto.
  - intros o. rewrite filter_In, cell_is_spec. tauto.
  - intros o. rewrite filter_In, andb_true_iff, !negb_true_iff.
    rewrite <- !not_true_iff_false, !cell_is_spec. tauto.
  - rewrite Hn. symmetry. apply tipo_split_length.
Qed.

End Totals.

Lemma income_and_expenses_split_witness :
  exists income expenses others,
    total_income shuffled_summary = sum_left (map Valor income) /\
    total_expenses shuffled_summary = sum_left (map Valor expenses) /\
    income = filter (fun o => cell_is "Entrada" (Tipo o)) shuffled_out /\
    expenses = filter (fun o => cell_is "Saída" (Tipo o)) shuffled_out /\
    (forall o, In o income <-> In o shuffled_out /\ Tipo o = CStr "Entrada") /\
    (forall o, In o expenses <-> In o shuffled_out /\ Tipo o = CStr "Saída") /\
    (forall o, In o others <->
               In o shuffled_out /\
               Tipo o <> CStr "Entrada" /\ Tipo o <> CStr "Saída") /\
    total_entries shuffled_summary
    = length income + length expenses + length others.
Proof.
  apply (income_and_expenses_split sum_left shuffled_out shuffled_summary).
  reflexivity.
Defined.

(** ** The command line *)

Lemma replace_absent (old new s : string) :
  occurs old s = false -> str_replace old new s = s.
Proof.
  unfold str_replace. induction s as [|c r IH]; [reflexivity|].
  cbn [occurs replace_from]. intros H. apply orb_false_iff in H as [H1 H2].
  rewrite H1. now rewrite IH.
Qed.

Lemma starts_with_csv_app (s : string) :
  starts_with ".csv" s = false ->
  s <> EmptyString ->
  starts_with ".csv" (s ++ ".csv") = false.
Proof.
  destruct s as [|c0 [|c1 [|c2 [|c3 r]]]]; intros H Hne; [congruence| | | |];
    cbn [starts_with String.append] in *.
  - destruct (Ascii.eqb "." c0); reflexivity.
  - destruct (Ascii.eqb "." c0), (Ascii.eqb "c" c1); reflexivity.
  - destruct (Ascii.eqb "." c0), (Ascii.eqb "c" c1), (Ascii.eqb "s" c2);
      reflexivity.
  - exact H.
Qed.

Lemma replace_csv_suffix (stem : string) :
  occurs ".csv" stem = false ->
  str_replace ".csv" "_optimized.csv" (stem ++ ".csv") =
  (stem ++ "_optimized.csv")%string.
Proof.
  unfold str_replace. induction stem as [|c r IH]; [reflexivity|].
  intros H. cbn [occurs] in H. apply orb_false_iff in H as [H1 H2].
  change ((String c r ++ ".csv")%string) with (String c (r ++ ".csv")).
  cbn [replace_from].
  change (String c (r ++ ".csv")) with ((String c r ++ ".csv")%string).
  rewrite (starts_with_csv_app (String c r) H1) by discriminate.
  cbn [String.append]. now rewrite IH.
Qed.

Lemma summary_defined (series_sum : list spec_float -> spec_float)
    (l : list Observation) :
  l <> [] ->
  exists s, generate_summary_stats series_sum l = Ok s /\
            total_entries s = length l.
Proof.
  destruct l as [|o l]; [congruence|]. intros _.
  eexists. split; reflexivity.
Qed.

Section Main.

Variable series_sum : list spec_float -> spec_float.
Variable read_csv : string -> option DataFrame.
Variable to_csv : string -> bool.

(** X15: when [main] completes, there were two arguments, the frame read
    from the second one was transformed, the result was written to the path
    obtained from the input path by replacing ".csv", and the summary is the
    one of the written frame: as many records were written, and as many
    entries are reported, as (rows) x (date columns) of the frame read. *)
Theorem main_completed (argv : list string) (output_file : string)
    (written : list Observation) (s : Summary) :
  main series_sum read_csv to_csv argv = Completed output_file written s ->
  exists prog input_file df,
    argv = [prog; input_file] /\
    read_csv input_file = Some df /\
    transform_data df = Ok written /\
    output_file = output_file_of input_file /\
    to_csv output_file = true /\
    generate_summary_stats series_sum written = Ok s /\
    length written = length (rows df) * length (date_columns df) /\
    total_entries s = length (rows df) * length (date_columns df).
Proof.
  destruct argv as [|prog [|input_file [|c l]]]; try discriminate.
  cbn [main].
  destruct (read_csv input_file) as [df|] eqn:Er; [|discriminate].
  destruct (transform_data df) as [out|e] eqn:Et; [|discriminate].
  destruct (to_csv (output_file_of input_file)) eqn:Ew; [|discriminate].
  destruct (generate_summary_stats series_sum out) as [s'|e] eqn:Es;
    [|discriminate].
  intros H. inversion H; subst.
  destruct (output_length df written Et) as [Hlen Hne].
  destruct (summary_defined series_sum written Hne) as (s0 & Hs0 & Htot).
  assert (s0 = s) by congruence. subst s0.
  exists prog, input_file, df. repeat split; auto. congruence.
Qed.

(** X16: when [main] fails on two arguments, either the input could not be
    read, or [transform_data] raised on the frame read, or the output could
    not be written after a transformation that succeeded; the summary never
    makes a run fail. *)
Theorem main_failures (prog input_file : string) (f : failure) :
  main series_sum read_csv to_csv [prog; input_file] = Failed f ->
  match f with
  | ReadError => read_csv input_file = None
  | TransformError e =>
      exists df, read_csv input_file = Some df /\ transform_data df = Raise e
  | WriteError =>
      exists df out,
        read_csv input_file = Some df /\ transform_data df = Ok out /\
        to_csv (output_file_of input_file) = false
  end.
Proof.
  cbn [main].
  destruct (read_csv input_file) as [df|] eqn:Er.
  - destruct (transform_data df) as [out|e] eqn:Et.
    + destruct (to_csv (output_file_of input_file)) eqn:Ew.
      * destruct (output_length df out Et) as [_ Hne].
        destruct (summary_defined series_sum out Hne) as (s & Hs & _).
        rewrite Hs. discriminate.
      * intros H. inversion H; subst. eauto.
    + intros H. inversion H; subst. eauto.
  - intros H. inversion H; subst. reflexivity.
Qed.

End Main.

Lemma main_failures_witness :
  exists df,
    sample_read "trimestres.csv" = Some df /\
    transform_data df = Raise TypeError_format.
Proof.
  apply (main_failures sum_left sample_read sample_write "optimizer.py"
           "trimestres.csv" (TransformError TypeError_format)).
  reflexivity.
Defined.

Lemma main_completed_witness :
  exists prog input_file df,
    ["optimizer.py"; "balancete.csv"]%string = [prog; input_file] /\
    sample_read input_file = Some df /\
    transform_data df = Ok shuffled_out /\
    "balancete_optimized.csv"%string = output_file_of input_file /\
    sample_write "balancete_optimized.csv" = true /\
    generate_summary_stats sum_left shuffled_out = Ok shuffled_summary /\
    length shuffled_out = length (rows df) * length (date_columns df) /\
    total_entries shuffled_summary = length (rows df) * length (date_columns df).
Proof.
  apply (main_completed sum_left sample_read sample_write
           ["optimizer.py"; "balancete.csv"]%string).
  reflexivity.
Defined.

(** X17: the output path.  A path in which ".csv" does not occur is its own
    output path, so the result is written over the input; the same path with
    ".csv" appended gets "_optimized.csv" in place of that ending. *)
Theorem output_file_names (stem : string) :
  occurs ".csv" stem = false ->
  output_file_of stem = stem /\
  output_file_of (stem ++ ".csv") = (stem ++ "_optimized.csv")%string.
Proof.
  intros H. unfold output_file_of. split.
  - now apply replace_absent.
  - now apply replace_csv_suffix.
Qed.

Lemma output_file_names_witness :
  output_file_of "balancete" = "balancete"%string /\
  output_file_of ("balancete" ++ ".csv") = ("balancete" ++ "_optimized.csv")%string.
Proof.
  apply (output_file_names "balancete"). reflexivity.
Defined.

(** ** Cells the reshape does not read *)

Lemma map_result_ext {A B : Type} (f g : A -> result B) (l : list A) :
  (forall x, In x l -> f x = g x) -> map_result f l = map_result g l.
Proof.
  induction l as [|x l IH]; intros H; [reflexivity|]. simpl.
  rewrite (H x) by now left. destruct (g x); [|reflexivity]. simpl.
  rewrite IH; [reflexivity|]. intros y Hy. apply H. now right.
Qed.

Lemma map_result_ext2 {A B : Type} (R : A -> A -> Prop) (f : A -> result B)
    (l l' : list A) :
  (forall x y, R x y -> f x = f y) -> Forall2 R l l' ->
  map_result f l = map_result f l'.
Proof.
  intros Hf H. induction H as [|x y l l' Hxy H IH]; [reflexivity|].
  simpl. rewrite (Hf x y Hxy), IH. reflexivity.
Qed.

(** X18: the run reads a row under the date columns and the three
    identifying labels only: two tables with the same labels whose rows agree
    under those give the same records and the same result, whatever the
    other columns, such as Total, hold. *)
Theorem transform_data_ignores_other_cells (df df' : DataFrame) :
  columns df = columns df' ->
  Forall2 (same_read_cells (date_columns df)) (rows df) (rows df') ->
  reshape df = reshape df' /\ transform_data df = transform_data df'.
Proof.
  intros Hc Hr.
  assert (Hd : date_columns df' = date_columns df)
    by (unfold date_columns; now rewrite Hc).
  assert (Hv : _validate_input_data df' = _validate_input_data df).
  { unfold _validate_input_data, missing_columns. rewrite Hd. now rewrite Hc. }
  assert (Hre : reshape df = reshape df').
  { rewrite !reshape_spec, Hd. f_equal.
    apply (map_result_ext2 (same_read_cells (date_columns df))); [|exact Hr].
    intros r r' Hrr. apply map_result_ext. intros col Hcol.
    unfold observation.
    rewrite (Hrr col) by now left.
    rewrite (Hrr "Categoria"%string) by (right; simpl; tauto).
    rewrite (Hrr "Tipo"%string) by (right; simpl; tauto).
    rewrite (Hrr "Grupo"%string) by (right; simpl; tauto).
    reflexivity. }
  split; [exact Hre|]. unfold transform_data. now rewrite Hv, Hre.
Qed.

Lemma transform_data_ignores_other_cells_witness :
  reshape shuffled_df = reshape (Build_DataFrame (columns shuffled_df)
                                   (map (fun r => set_cell r "Total" CNaN)
                                        (rows shuffled_df))) /\
  transform_data shuffled_df =
  transform_data (Build_DataFrame (columns shuffled_df)
                    (map (fun r => set_cell r "Total" CNaN) (rows shuffled_df))).
Proof.
  apply (transform_data_ignores_other_cells shuffled_df).
  - reflexivity.
  - repeat constructor;
      intros label [H|H]; simpl in H;
      repeat destruct H as [<-|H]; try reflexivity; contradiction.
Defined.

Example output_paths :
  output_file_of "balancete.csv" = "balancete_optimized.csv"%string /\
  output_file_of "a.csv.csv" = "a_optimized.csv_optimized.csv"%string /\
  output_file_of "dados.CSV" = "dados.CSV"%string /\
  output_file_of "pasta.csv/balancete.txt" =
    "pasta_optimized.csv/balancete.txt"%string.
Proof. repeat split. Qed.

Example sample_summary :
  generate_summary_stats sum_left shuffled_out = Ok shuffled_summary /\
  total_income shuffled_summary = PyFloat.of_Z 30 /\
  total_expenses shuffled_summary = PyFloat.of_decimal false 105 (-1).
Proof. repeat split. Qed.
